(** * Cittadinanza Check: the document classifier and the quality scorer

    A shallow embedding of the decision logic of
    [citizenbship-docs/src/App.tsx]: the helpers [isImage] and [isPDF], the
    filename classifier [guessDocType] and the scorer [scoreQuality], followed
    by the properties established about them.

    JavaScript strings are sequences of UTF-16 code units; they are modelled
    as lists of code units ([N]).  Scores are JavaScript numbers that only
    ever hold small integers, so they are modelled in [Z]. *)

From Stdlib Require Import ZArith NArith Lia Bool Ascii String.
From stdpp Require Import base decidable countable list strings gmap sets.

Open Scope string_scope.
Open Scope list_scope.
Open Scope Z_scope.

(* ===================================================================== *)
(** ** Strings *)
(* ===================================================================== *)

Module JS.

(** A JavaScript string: its UTF-16 code units. *)
Definition jsstring := list N.

Definition byte (c : ascii) : N := N_of_ascii c.

(** String literals of the source are UTF-8 in the source file; [lit] reads
    such a literal into the code units the JavaScript engine sees.  Sequences
    of one, two and three bytes cover the Basic Multilingual Plane, which is
    all the source's literals use. *)
Fixpoint lit (s : string) : jsstring :=
  match s with
  | EmptyString => []
  | String b0 s0 =>
      let n0 := byte b0 in
      if (n0 <? 128)%N then n0 :: lit s0
      else match s0 with
      | EmptyString => [n0]
      | String b1 s1 =>
          let n1 := byte b1 in
          if (n0 <? 224)%N
          then ((n0 - 192) * 64 + (n1 - 128))%N :: lit s1
          else match s1 with
          | EmptyString => [n0; n1]
          | String b2 s2 =>
              let n2 := byte b2 in
              ((n0 - 224) * 4096 + (n1 - 128) * 64 + (n2 - 128))%N :: lit s2
          end
      end
  end.

(** Truthiness of a string value: every string but the empty one. *)
Definition truthy (s : jsstring) : bool :=
  match s with [] => false | _ :: _ => true end.

(** Truthiness of an optional property: [undefined] is falsy. *)
Definition truthy_opt (o : option jsstring) : bool :=
  match o with None => false | Some s => truthy s end.

(** [startsWith s p]: [p] is a prefix of [s]. *)
Fixpoint startsWith (s p : jsstring) : bool :=
  match p, s with
  | [], _ => true
  | _ :: _, [] => false
  | c :: p', x :: s' => (x =? c)%N && startsWith s' p'
  end.

(** [String.prototype.includes]: [sub] occurs in [s] at some position. *)
Fixpoint includes (s sub : jsstring) : bool :=
  startsWith s sub ||
  match s with
  | [] => false
  | _ :: s' => includes s' sub
  end.

(** Lower-casing of one code unit, for the Basic Latin and Latin-1 Supplement
    blocks (U+0041..U+005A, and U+00C0..U+00DE but the multiplication sign
    U+00D7).  Every keyword of [guessDocType] lives in these two blocks; code
    units outside them are left as they are. *)
Definition lowerUnit (c : N) : N :=
  if ((65 <=? c) && (c <=? 90))%N then (c + 32)%N
  else if ((192 <=? c) && (c <=? 222) && negb (c =? 215))%N then (c + 32)%N
  else c.

(** [String.prototype.toLowerCase] on those blocks. *)
Definition toLowerCase (s : jsstring) : jsstring := map lowerUnit s.

(** *** Regular expressions

    The fragment of the pattern language the source uses: literal characters,
    sequence, alternation, [r?], the empty pattern and the end-of-input
    assertion [$] (no multiline flag, so [$] holds at the end of the input
    only). *)
Inductive RegExp : Type :=
  | Chr (c : N)
  | Seq (r1 r2 : RegExp)
  | Alt (r1 r2 : RegExp)
  | Opt (r : RegExp)
  | Empty
  | AssertEnd.

(** Canonicalize of the [i] flag without the [u] flag: a character is
    compared through its upper-case form.  For a code unit of 128 and above
    the result is again 128 or above (the language definition forbids mapping
    a non-ASCII character to an ASCII one), so against the ASCII characters of
    the source's patterns only the ASCII letters need folding. *)
Definition canonicalize (c : N) : N :=
  if ((97 <=? c) && (c <=? 122))%N then (c - 32)%N else c.

(** The backtracking matcher, with the continuation [k] run on the rest of
    the input. *)
Fixpoint matchRe (r : RegExp) (s : jsstring) (k : jsstring -> bool) : bool :=
  match r with
  | Chr c =>
      match s with
      | [] => false
      | x :: s' => (canonicalize x =? canonicalize c)%N && k s'
      end
  | Seq r1 r2 => matchRe r1 s (fun s' => matchRe r2 s' k)
  | Alt r1 r2 => matchRe r1 s k || matchRe r2 s k
  | Opt r0 => matchRe r0 s k || k s
  | Empty => k s
  | AssertEnd => match s with [] => k [] | _ :: _ => false end
  end.

(** What the matcher computes, as a relation: [Matches r s rest] when [r]
    matches a prefix of [s] and leaves [rest]. *)
Inductive Matches : RegExp -> jsstring -> jsstring -> Prop :=
  | M_Chr c x s : canonicalize x = canonicalize c -> Matches (Chr c) (x :: s) s
  | M_Seq r1 r2 s s1 s2 :
      Matches r1 s s1 -> Matches r2 s1 s2 -> Matches (Seq r1 r2) s s2
  | M_AltL r1 r2 s s1 : Matches r1 s s1 -> Matches (Alt r1 r2) s s1
  | M_AltR r1 r2 s s1 : Matches r2 s s1 -> Matches (Alt r1 r2) s s1
  | M_OptSome r s s1 : Matches r s s1 -> Matches (Opt r) s s1
  | M_OptNone r s : Matches (Opt r) s s
  | M_Empty s : Matches Empty s s
  | M_AssertEnd : Matches AssertEnd [] [].

(** [RegExp.prototype.test]: a match starting at some position. *)
Fixpoint test (r : RegExp) (s : jsstring) : bool :=
  matchRe r s (fun _ => true) ||
  match s with
  | [] => false
  | _ :: s' => test r s'
  end.

(** A run of literal characters. *)
Fixpoint word (s : jsstring) : RegExp :=
  match s with
  | [] => Empty
  | c :: s' => Seq (Chr c) (word s')
  end.

End JS.

Import JS.

(* ===================================================================== *)
(** ** Types *)
(* ===================================================================== *)

(** [DocType | "unknown"], the type of [UploadedDoc.inferredType]. *)
Inductive InferredType : Type :=
  | certidao_nascimento
  | certidao_casamento
  | certidao_obito
  | certidao_naturalizacao
  | certidao_negativa_naturalizacao
  | passaporte
  | rg_cnh
  | comprovante_endereco
  | apostila_haya
  | traducao_juramentada
  | unknown.

#[global] Instance InferredType_eq_dec : EqDecision InferredType.
Proof. solve_decision. Defined.

Definition InferredType_code (t : InferredType) : nat :=
  match t with
  | certidao_nascimento => 0
  | certidao_casamento => 1
  | certidao_obito => 2
  | certidao_naturalizacao => 3
  | certidao_negativa_naturalizacao => 4
  | passaporte => 5
  | rg_cnh => 6
  | comprovante_endereco => 7
  | apostila_haya => 8
  | traducao_juramentada => 9
  | unknown => 10
  end%nat.

Definition InferredType_of_code (n : nat) : InferredType :=
  match n with
  | 0 => certidao_nascimento
  | 1 => certidao_casamento
  | 2 => certidao_obito
  | 3 => certidao_naturalizacao
  | 4 => certidao_negativa_naturalizacao
  | 5 => passaporte
  | 6 => rg_cnh
  | 7 => comprovante_endereco
  | 8 => apostila_haya
  | 9 => traducao_juramentada
  | _ => unknown
  end%nat.

#[global] Instance InferredType_countable : Countable InferredType.
Proof.
  apply (inj_countable' InferredType_code InferredType_of_code).
  intros []; reflexivity.
Defined.

(** The part of the browser's [File] the code reads: its name (and, in the
    exported summary only, its size). *)
Record File : Type := mkFile {
  name : jsstring;
  size : N
}.

Record UploadedDoc : Type := mkDoc {
  id : jsstring;
  file : File;
  inferredType : InferredType
}.

Record Applicant : Type := mkApplicant {
  fullName : jsstring;
  email : jsstring;
  phone : option jsstring;
  country : jsstring;
  city : jsstring
}.

(** The five values of [LineageInfo.relationshipToYou]. *)
Inductive Relationship : Type :=
  | bisavo
  | trisavo
  | tataravo
  | outro
  | avo.

(** The string each value is at run time. *)
Definition relationship_string (r : Relationship) : jsstring :=
  match r with
  | bisavo => lit "bisavô/avó"
  | trisavo => lit "trisavô/avó"
  | tataravo => lit "tataravô/avó"
  | outro => lit "outro"
  | avo => lit "avô/avó"
  end.

Record LineageInfo : Type := mkLineage {
  italianAncestorName : jsstring;
  italianAncestorBirthYear : option jsstring;
  italianAncestorBirthPlace : option jsstring;
  relationshipToYou : Relationship;
  anyFemaleBefore1948 : bool;
  anyNaturalizationInLine : bool;
  naturalizedBeforeChildBirth : bool
}.

(** The value [scoreQuality] returns. *)
Record Quality : Type := mkQuality {
  score : Z;
  label : jsstring;
  flags : list jsstring
}.

(* ===================================================================== *)
(** ** Helpers *)
(* ===================================================================== *)

(** [/\.(png|jpe?g|webp|gif)$/i] *)
Definition isImage_re : RegExp :=
  Seq (Chr (byte "."))
      (Seq (Alt (word (lit "png"))
             (Alt (Seq (word (lit "jp")) (Seq (Opt (Chr (byte "e"))) (Chr (byte "g"))))
                (Alt (word (lit "webp"))
                   (word (lit "gif")))))
         AssertEnd).

(** [/\.(pdf)$/i] *)
Definition isPDF_re : RegExp :=
  Seq (Chr (byte ".")) (Seq (word (lit "pdf")) AssertEnd).

Definition isImage (name : jsstring) : bool := test isImage_re name.
Definition isPDF (name : jsstring) : bool := test isPDF_re name.

(** [guessDocType], over the lower-casing function: the order of the tests is
    the order of the [if] statements of the source. *)
Section Classifier.
Variable lower : jsstring -> jsstring.

Definition guessDocTypeWith (name : jsstring) : InferredType :=
  let n := lower name in
  if includes n (lit "nascimento") then certidao_nascimento
  else if includes n (lit "casamento") then certidao_casamento
  else if includes n (lit "óbito") || includes n (lit "obito") then certidao_obito
  else if includes n (lit "naturaliza") then certidao_naturalizacao
  else if includes n (lit "negativa") && includes n (lit "naturaliza")
    then certidao_negativa_naturalizacao
  else if includes n (lit "passaporte") then passaporte
  else if includes n (lit "rg") || includes n (lit "cnh") || includes n (lit "identidade")
    then rg_cnh
  else if includes n (lit "endereco") || includes n (lit "endereço")
    then comprovante_endereco
  else if includes n (lit "apostila") || includes n (lit "haia") || includes n (lit "haya")
    then apostila_haya
  else if includes n (lit "tradu") then traducao_juramentada
  else unknown.
End Classifier.

Definition guessDocType (name : jsstring) : InferredType :=
  guessDocTypeWith toLowerCase name.

(* ===================================================================== *)
(** ** The scorer *)
(* ===================================================================== *)

(** [Set.prototype.has]. *)
Definition has (types : gset InferredType) (t : InferredType) : bool :=
  bool_decide (t ∈ types).

(** [Array.prototype.every]: true of the empty array. *)
Definition every {A : Type} (p : A -> bool) (l : list A) : bool := forallb p l.

(** The mutable [score] of the source is threaded through the blocks of
    [scoreQuality], one function for each commented block. *)

(** Base info completeness. *)
Definition baseInfoCompleteness (applicant : Applicant) (score : Z) : Z :=
  let score := if truthy (fullName applicant) then score + 5 else score in
  let score := if truthy (email applicant) then score + 5 else score in
  let score := if truthy (country applicant) then score + 3 else score in
  let score := if truthy (city applicant) then score + 3 else score in
  score.

(** Lineage essentials. *)
Definition lineageEssentials (lineage : LineageInfo) (score : Z) : Z :=
  let score := if truthy (italianAncestorName lineage) then score + 10 else score in
  let score := if truthy_opt (italianAncestorBirthYear lineage) then score + 6 else score in
  let score :=
    if truthy (relationship_string (relationshipToYou lineage)) then score + 6 else score in
  score.

(** Document presence boosts. *)
Definition documentPresenceBoosts (types : gset InferredType) (score : Z) : Z :=
  let score := if has types certidao_nascimento then score + 10 else score in
  let score := if has types certidao_casamento then score + 8 else score in
  let score := if has types certidao_obito then score + 6 else score in
  let score :=
    if has types certidao_negativa_naturalizacao || has types certidao_naturalizacao
    then score + 12 else score in
  let score := if has types apostila_haya then score + 8 else score in
  let score := if has types traducao_juramentada then score + 6 else score in
  score.

(** Risk adjustments. *)
Definition riskAdjustments (lineage : LineageInfo) (score : Z) : Z :=
  let score := if anyNaturalizationInLine lineage then score - 8 else score in
  let score := if naturalizedBeforeChildBirth lineage then score - 25 else score in
  let score := if anyFemaleBefore1948 lineage then score - 8 else score in
  score.

(** File format sanity. *)
Definition pdfOrImg (docs : list UploadedDoc) : bool :=
  every (fun d => isPDF (name (file d)) || isImage (name (file d))) docs.

Definition fileFormatSanity (docs : list UploadedDoc) (score : Z) : Z :=
  score + (if pdfOrImg docs then 6 else 0).

(** [new Set(docs.map((d) => d.inferredType))]. *)
Definition typesOf (docs : list UploadedDoc) : gset InferredType :=
  list_to_set (map inferredType docs).

(** The value of [score] when the source reaches [// File format sanity]. *)
Definition scoreBeforeFormat
    (lineage : LineageInfo) (docs : list UploadedDoc) (applicant : Applicant) : Z :=
  let score := 0 in
  let score := baseInfoCompleteness applicant score in
  let score := lineageEssentials lineage score in
  let types := typesOf docs in
  let score := documentPresenceBoosts types score in
  let score := riskAdjustments lineage score in
  score.

(** The value of [score] when the source reaches [// Clamp]. *)
Definition scoreBeforeClamp
    (lineage : LineageInfo) (docs : list UploadedDoc) (applicant : Applicant) : Z :=
  fileFormatSanity docs (scoreBeforeFormat lineage docs applicant).

(** Key flags. *)
Definition keyFlags (types : gset InferredType) (lineage : LineageInfo) : list jsstring :=
  let flags := [] in
  let flags :=
    if negb (has types certidao_nascimento)
    then flags ++ [lit "Falta certidão de nascimento (linhagem)"] else flags in
  let flags :=
    if negb (has types certidao_casamento)
    then flags ++ [lit "Falta certidão de casamento em alguma geração"] else flags in
  let flags :=
    if negb (has types certidao_negativa_naturalizacao)
       && negb (has types certidao_naturalizacao)
    then flags ++ [lit "Falta prova de (não) naturalização do Avo Italiano"] else flags in
  let flags :=
    if naturalizedBeforeChildBirth lineage
    then flags ++ [lit "Naturalização antes do nascimento do descendente — impeditivo"]
    else flags in
  let flags :=
    if anyFemaleBefore1948 lineage
    then flags ++ [lit "Linha materna pré‑1948 — via judicial"] else flags in
  flags.

Definition scoreQuality
    (lineage : LineageInfo) (docs : list UploadedDoc) (applicant : Applicant) : Quality :=
  let score := scoreBeforeClamp lineage docs applicant in
  let types := typesOf docs in
  (* Clamp *)
  let score := Z.max 0 (Z.min 100 score) in
  (* Label *)
  let label :=
    if 80 <=? score then lit "Excelente — Alta probabilidade de viabilidade"
    else if 60 <=? score then lit "Boa — Viável com possíveis ajustes"
    else if 40 <=? score then lit "Regular — Documentos/linhagem incompletos"
    else lit "Baixa — Falhas críticas a resolver" in
  let flags := keyFlags types lineage in
  {| score := score; label := label; flags := flags |}.

(** The document [onFilePick] makes of a picked file; [uid] is the random
    identifier it draws. *)
Definition newDoc (uid : jsstring) (f : File) : UploadedDoc :=
  {| id := uid; file := f; inferredType := guessDocType (name f) |}.

(* ===================================================================== *)
(** ** Vocabulary of the properties *)
(* ===================================================================== *)

(** The four labels and the five flag messages, under the names the
    specification gives them in English. *)
Definition label_excellent : jsstring := lit "Excelente — Alta probabilidade de viabilidade".
Definition label_good : jsstring := lit "Boa — Viável com possíveis ajustes".
Definition label_fair : jsstring := lit "Regular — Documentos/linhagem incompletos".
Definition label_low : jsstring := lit "Baixa — Falhas críticas a resolver".

Definition flag_missing_birth : jsstring := lit "Falta certidão de nascimento (linhagem)".
Definition flag_missing_marriage : jsstring :=
  lit "Falta certidão de casamento em alguma geração".
Definition flag_missing_naturalization_proof : jsstring :=
  lit "Falta prova de (não) naturalização do Avo Italiano".
Definition flag_disqualifying_naturalization : jsstring :=
  lit "Naturalização antes do nascimento do descendente — impeditivo".
Definition flag_maternal_line : jsstring := lit "Linha materna pré‑1948 — via judicial".

(** Case folding of the ASCII letters. *)
Definition asciiLower (c : N) : N :=
  if ((65 <=? c) && (c <=? 90))%N then (c + 32)%N else c.

(** [name] ends in [ext], letter case apart. *)
Definition endsWithIgnoreCase (name ext : jsstring) : Prop :=
  exists pre suf, name = pre ++ suf /\ map asciiLower suf = ext.

Definition recognizedExtensions : list jsstring :=
  [lit ".pdf"; lit ".png"; lit ".jpg"; lit ".jpeg"; lit ".webp"; lit ".gif"].

Definition hasRecognizedExtension (name : jsstring) : Prop :=
  exists ext, ext ∈ recognizedExtensions /\ endsWithIgnoreCase name ext.

(** Two documents with the same file name and the same inferred type. *)
Definition sameNameAndType (d d' : UploadedDoc) : Prop :=
  name (file d') = name (file d) /\ inferredType d' = inferredType d.

(** [docs'] is [docs] with a copy [d'] of one of its documents put in. *)
Definition duplicated (docs docs' : list UploadedDoc) : Prop :=
  exists l1 l2 d d',
    docs = l1 ++ l2 /\ docs' = l1 ++ d' :: l2 /\ d ∈ docs /\ sameNameAndType d d'.

Definition withPhone (a : Applicant) (p : option jsstring) : Applicant :=
  {| fullName := fullName a; email := email a; phone := p;
     country := country a; city := city a |}.

Definition withBirthPlace (l : LineageInfo) (p : option jsstring) : LineageInfo :=
  {| italianAncestorName := italianAncestorName l;
     italianAncestorBirthYear := italianAncestorBirthYear l;
     italianAncestorBirthPlace := p;
     relationshipToYou := relationshipToYou l;
     anyFemaleBefore1948 := anyFemaleBefore1948 l;
     anyNaturalizationInLine := anyNaturalizationInLine l;
     naturalizedBeforeChildBirth := naturalizedBeforeChildBirth l |}.

(** *** Sample inputs *)

Definition emptyApplicant : Applicant :=
  {| fullName := []; email := []; phone := Some []; country := []; city := [] |}.

Definition fullApplicant : Applicant :=
  {| fullName := lit "Maria Rossi"; email := lit "maria@example.com"; phone := None;
     country := lit "Brasil"; city := lit "São Paulo" |}.

Definition nameOnlyApplicant : Applicant :=
  {| fullName := lit "Maria Rossi"; email := []; phone := None; country := []; city := [] |}.

(** The lineage the form starts from. *)
Definition defaultLineage : LineageInfo :=
  {| italianAncestorName := []; italianAncestorBirthYear := Some [];
     italianAncestorBirthPlace := Some []; relationshipToYou := bisavo;
     anyFemaleBefore1948 := false; anyNaturalizationInLine := false;
     naturalizedBeforeChildBirth := false |}.

Definition blockedLineage : LineageInfo :=
  {| italianAncestorName := []; italianAncestorBirthYear := Some [];
     italianAncestorBirthPlace := Some []; relationshipToYou := bisavo;
     anyFemaleBefore1948 := false; anyNaturalizationInLine := false;
     naturalizedBeforeChildBirth := true |}.

Definition worstLineage : LineageInfo :=
  {| italianAncestorName := []; italianAncestorBirthYear := None;
     italianAncestorBirthPlace := None; relationshipToYou := outro;
     anyFemaleBefore1948 := true; anyNaturalizationInLine := true;
     naturalizedBeforeChildBirth := true |}.

Definition fullLineage : LineageInfo :=
  {| italianAncestorName := lit "Giuseppe Rossi"; italianAncestorBirthYear := Some (lit "1880");
     italianAncestorBirthPlace := Some (lit "Verona"); relationshipToYou := bisavo;
     anyFemaleBefore1948 := false; anyNaturalizationInLine := false;
     naturalizedBeforeChildBirth := false |}.

Definition namedLineage : LineageInfo :=
  {| italianAncestorName := lit "Giuseppe Rossi"; italianAncestorBirthYear := None;
     italianAncestorBirthPlace := None; relationshipToYou := bisavo;
     anyFemaleBefore1948 := false; anyNaturalizationInLine := false;
     naturalizedBeforeChildBirth := false |}.

Definition yearOnlyLineage : LineageInfo :=
  {| italianAncestorName := []; italianAncestorBirthYear := Some (lit "1880");
     italianAncestorBirthPlace := None; relationshipToYou := bisavo;
     anyFemaleBefore1948 := false; anyNaturalizationInLine := false;
     naturalizedBeforeChildBirth := false |}.

Definition picked (uid fname : string) (bytes : N) : UploadedDoc :=
  newDoc (lit uid) {| name := lit fname; size := bytes |}.

Definition doc_nascimento := picked "k3f9a" "certidao_nascimento.pdf" 52341.
Definition doc_casamento := picked "p0q1z" "certidao_casamento.PDF" 48110.
Definition doc_obito := picked "m7x2c" "certidao_obito.jpg" 120033.
Definition doc_naturalizacao := picked "a8b8e" "naturalizacao.pdf" 2048.
Definition doc_apostila := picked "zz91k" "apostila_haia.png" 9000.
Definition doc_traducao := picked "t4t4t" "traducao_juramentada.jpeg" 7777.
Definition doc_notes := picked "n0n0n" "notes.txt" 12.
Definition doc_nascimento_docx := picked "d0cx1" "nascimento.docx" 30000.
Definition doc_negativa_naturalizacao :=
  picked "q5w6e" "certidao_negativa_naturalizacao.pdf" 64000.

(** A document carrying the type no picked file gets. *)
Definition doc_negativa_typed : UploadedDoc :=
  {| id := lit "h6j7k"; file := {| name := lit "cnn.pdf"; size := 1000 |};
     inferredType := certidao_negativa_naturalizacao |}.

(** A second upload of the birth certificate, under a new identifier. *)
Definition doc_nascimento_again : UploadedDoc :=
  picked "r2d2x" "certidao_nascimento.pdf" 52341.

(** The birth certificate with another identifier and another size. *)
Definition doc_nascimento_resized : UploadedDoc :=
  {| id := lit "zzzzz"; file := {| name := lit "certidao_nascimento.pdf"; size := 1 |};
     inferredType := certidao_nascimento |}.

Definition allDocs : list UploadedDoc :=
  [doc_nascimento; doc_casamento; doc_obito; doc_naturalizacao; doc_apostila; doc_traducao].

(* ===================================================================== *)
(** ** The component around the scorer *)
(* ===================================================================== *)

(** [onFilePick]: nothing happens without a file list; otherwise one document
    for each picked file, in order, is put after the ones already there.
    [uid] draws from [Math.random]; [rnd i] stands for the identifier drawn for
    the file at index [i]. *)
Definition onFilePick
    (rnd : nat -> jsstring) (files : option (list File)) (prev : list UploadedDoc)
    : list UploadedDoc :=
  match files with
  | None => prev
  | Some fs => prev ++ imap (fun i f => newDoc (rnd i) f) fs
  end.

(** [removeDoc]: [prev.filter((d) => d.id !== id)]. *)
Definition removeDoc (ident : jsstring) (prev : list UploadedDoc) : list UploadedDoc :=
  filter (fun d => id d <> ident) prev.

(** [progressColor]. *)
Definition progressColor (score : Z) : jsstring :=
  if 80 <=? score then lit "bg-green-500"
  else if 60 <=? score then lit "bg-emerald-500"
  else if 40 <=? score then lit "bg-amber-500"
  else lit "bg-red-500".

(** [Array.prototype.slice(0, n)]. *)
Definition slice0 {A : Type} (n : nat) (l : list A) : list A := take n l.

(** The list items of the card at the top of the page: the flags, and
    [<li>…e mais {n} pontos</li>]. *)
Inductive HeroItem : Type :=
  | FlagItem (f : jsstring)
  | MoreItem (n : Z).

(** [flags.length > 0 && (<ul> {flags.slice(0, 4).map(...)}
    {flags.length > 4 && (...)} </ul>)]: the items of the list, none when the
    list is not rendered. *)
Definition heroItems (flags : list jsstring) : list HeroItem :=
  if 0 <? Z.of_nat (length flags)
  then map FlagItem (slice0 4 flags)
       ++ (if 4 <? Z.of_nat (length flags)
           then [MoreItem (Z.of_nat (length flags) - 4)] else [])
  else [].

(** The state [App] keeps with [useState]. *)
Record AppState : Type := mkState {
  st_applicant : Applicant;
  st_lineage : LineageInfo;
  st_docs : list UploadedDoc;
  st_accepted : bool
}.

Definition initialState : AppState :=
  {| st_applicant :=
       {| fullName := lit ""; email := lit ""; phone := Some (lit "");
          country := lit "Brasil"; city := lit "" |};
     st_lineage :=
       {| italianAncestorName := lit ""; italianAncestorBirthYear := Some (lit "");
          italianAncestorBirthPlace := Some (lit ""); relationshipToYou := bisavo;
          anyFemaleBefore1948 := false; anyNaturalizationInLine := false;
          naturalizedBeforeChildBirth := false |};
     st_docs := [];
     st_accepted := false |}.

(** The handlers of the form, one event for each. *)
Inductive Event : Type :=
  | SetFullName (v : jsstring)
  | SetEmail (v : jsstring)
  | SetPhone (v : jsstring)
  | SetCity (v : jsstring)
  | SetCountry (v : jsstring)
  | SetAncestorName (v : jsstring)
  | SetAncestorBirthYear (v : jsstring)
  | SetAncestorBirthPlace (v : jsstring)
  | SetRelationship (r : Relationship)
  | SetAnyFemaleBefore1948 (b : bool)
  | SetAnyNaturalizationInLine (b : bool)
  | SetNaturalizedBeforeChildBirth (b : bool)
  | FilePick (rnd : nat -> jsstring) (files : option (list File))
  | RemoveDoc (ident : jsstring)
  | SetAccepted (b : bool).

Definition setApplicant (st : AppState) (a : Applicant) : AppState :=
  {| st_applicant := a; st_lineage := st_lineage st;
     st_docs := st_docs st; st_accepted := st_accepted st |}.

Definition setLineage (st : AppState) (l : LineageInfo) : AppState :=
  {| st_applicant := st_applicant st; st_lineage := l;
     st_docs := st_docs st; st_accepted := st_accepted st |}.

Definition setDocs (st : AppState) (f : list UploadedDoc -> list UploadedDoc) : AppState :=
  {| st_applicant := st_applicant st; st_lineage := st_lineage st;
     st_docs := f (st_docs st); st_accepted := st_accepted st |}.

Definition handle (st : AppState) (e : Event) : AppState :=
  let a := st_applicant st in
  let l := st_lineage st in
  match e with
  | SetFullName v =>
      setApplicant st {| fullName := v; email := email a; phone := phone a;
                         country := country a; city := city a |}
  | SetEmail v =>
      setApplicant st {| fullName := fullName a; email := v; phone := phone a;
                         country := country a; city := city a |}
  | SetPhone v =>
      setApplicant st {| fullName := fullName a; email := email a; phone := Some v;
                         country := country a; city := city a |}
  | SetCity v =>
      setApplicant st {| fullName := fullName a; email := email a; phone := phone a;
                         country := country a; city := v |}
  | SetCountry v =>
      setApplicant st {| fullName := fullName a; email := email a; phone := phone a;
                         country := v; city := city a |}
  | SetAncestorName v =>
      setLineage st {| italianAncestorName := v;
                       italianAncestorBirthYear := italianAncestorBirthYear l;
                       italianAncestorBirthPlace := italianAncestorBirthPlace l;
                       relationshipToYou := relationshipToYou l;
                       anyFemaleBefore1948 := anyFemaleBefore1948 l;
                       anyNaturalizationInLine := anyNaturalizationInLine l;
                       naturalizedBeforeChildBirth := naturalizedBeforeChildBirth l |}
  | SetAncestorBirthYear v =>
      setLineage st {| italianAncestorName := italianAncestorName l;
                       italianAncestorBirthYear := Some v;
                       italianAncestorBirthPlace := italianAncestorBirthPlace l;
                       relationshipToYou := relationshipToYou l;
                       anyFemaleBefore1948 := anyFemaleBefore1948 l;
                       anyNaturalizationInLine := anyNaturalizationInLine l;
                       naturalizedBeforeChildBirth := naturalizedBeforeChildBirth l |}
  | SetAncestorBirthPlace v => setLineage st (withBirthPlace l (Some v))
  | SetRelationship r =>
      setLineage st {| italianAncestorName := italianAncestorName l;
                       italianAncestorBirthYear := italianAncestorBirthYear l;
                       italianAncestorBirthPlace := italianAncestorBirthPlace l;
                       relationshipToYou := r;
                       anyFemaleBefore1948 := anyFemaleBefore1948 l;
                       anyNaturalizationInLine := anyNaturalizationInLine l;
                       naturalizedBeforeChildBirth := naturalizedBeforeChildBirth l |}
  | SetAnyFemaleBefore1948 b =>
      setLineage st {| italianAncestorName := italianAncestorName l;
                       italianAncestorBirthYear := italianAncestorBirthYear l;
                       italianAncestorBirthPlace := italianAncestorBirthPlace l;
                       relationshipToYou := relationshipToYou l;
                       anyFemaleBefore1948 := b;
                       anyNaturalizationInLine := anyNaturalizationInLine l;
                       naturalizedBeforeChildBirth := naturalizedBeforeChildBirth l |}
  | SetAnyNaturalizationInLine b =>
      setLineage st {| italianAncestorName := italianAncestorName l;
                       italianAncestorBirthYear := italianAncestorBirthYear l;
                       italianAncestorBirthPlace := italianAncestorBirthPlace l;
                       relationshipToYou := relationshipToYou l;
                       anyFemaleBefore1948 := anyFemaleBefore1948 l;
                       anyNaturalizationInLine := b;
                       naturalizedBeforeChildBirth := naturalizedBeforeChildBirth l |}
  | SetNaturalizedBeforeChildBirth b =>
      setLineage st {| italianAncestorName := italianAncestorName l;
                       italianAncestorBirthYear := italianAncestorBirthYear l;
                       italianAncestorBirthPlace := italianAncestorBirthPlace l;
                       relationshipToYou := relationshipToYou l;
                       anyFemaleBefore1948 := anyFemaleBefore1948 l;
                       anyNaturalizationInLine := anyNaturalizationInLine l;
                       naturalizedBeforeChildBirth := b |}
  | FilePick rnd files => setDocs st (onFilePick rnd files)
  | RemoveDoc ident => setDocs st (removeDoc ident)
  | SetAccepted b =>
      {| st_applicant := st_applicant st; st_lineage := st_lineage st;
         st_docs := st_docs st; st_accepted := b |}
  end.

(** The state after a run of events. *)
Definition run (st : AppState) (events : list Event) : AppState :=
  fold_left handle events st.

(** What [App] passes on to the page: [useMemo(() => scoreQuality(...))]. *)
Definition evaluation (st : AppState) : Quality :=
  scoreQuality (st_lineage st) (st_docs st) (st_applicant st).

(** The entry of [downloadSummary] for one document. *)
Record SummaryDoc : Type := mkSummaryDoc {
  sd_name : jsstring;
  sd_size : N;
  sd_inferredType : InferredType
}.

(** The object [downloadSummary] serializes; [now] is [new Date().toISOString()]. *)
Record Payload : Type := mkPayload {
  p_applicant : Applicant;
  p_lineage : LineageInfo;
  p_docs : list SummaryDoc;
  p_score : Z;
  p_label : jsstring;
  p_flags : list jsstring;
  p_createdAt : jsstring
}.

Definition downloadSummary (st : AppState) (now : jsstring) : Payload :=
  {| p_applicant := st_applicant st;
     p_lineage := st_lineage st;
     p_docs := map (fun d => {| sd_name := name (file d); sd_size := size (file d);
                                sd_inferredType := inferredType d |}) (st_docs st);
     p_score := score (evaluation st);
     p_label := label (evaluation st);
     p_flags := flags (evaluation st);
     p_createdAt := now |}.

(** *** More vocabulary *)

(** The keywords whose presence makes [guessDocType] return each type. *)
Definition triggers (t : InferredType) : list jsstring :=
  match t with
  | certidao_nascimento => [lit "nascimento"]
  | certidao_casamento => [lit "casamento"]
  | certidao_obito => [lit "óbito"; lit "obito"]
  | certidao_naturalizacao => [lit "naturaliza"]
  | certidao_negativa_naturalizacao => []
  | passaporte => [lit "passaporte"]
  | rg_cnh => [lit "rg"; lit "cnh"; lit "identidade"]
  | comprovante_endereco => [lit "endereco"; lit "endereço"]
  | apostila_haya => [lit "apostila"; lit "haia"; lit "haya"]
  | traducao_juramentada => [lit "tradu"]
  | unknown => []
  end.

Definition allDocTypes : list InferredType :=
  [certidao_nascimento; certidao_casamento; certidao_obito; certidao_naturalizacao;
   certidao_negativa_naturalizacao; passaporte; rg_cnh; comprovante_endereco;
   apostila_haya; traducao_juramentada].

(** The fifteen keywords that decide the classification. *)
Definition allKeywords : list jsstring := concat (map triggers allDocTypes).

(** The five flag messages in the order [scoreQuality] pushes them. *)
Definition allFlags : list jsstring :=
  [flag_missing_birth; flag_missing_marriage; flag_missing_naturalization_proof;
   flag_disqualifying_naturalization; flag_maternal_line].

(** The types [scoreQuality] never asks for. *)
Definition unscoredTypes : list InferredType :=
  [passaporte; rg_cnh; comprovante_endereco; unknown].

(** The same documents with those of the two naturalization types counted
    as of unknown type; the files, and so the format check, are as before. *)
Definition withoutNaturalization (docs : list UploadedDoc) : list UploadedDoc :=
  map (fun d =>
         {| id := id d; file := file d;
            inferredType :=
              match inferredType d with
              | certidao_naturalizacao | certidao_negativa_naturalizacao => unknown
              | t => t
              end |}) docs.

(** A certificate of naturalization in a format the check does not know. *)
Definition doc_naturalizacao_docx : UploadedDoc :=
  picked "x9y9z" "naturalizacao.docx" 31000.

(** A file of no scored type under a name without a recognised extension. *)
Definition doc_unknown_txt : UploadedDoc :=
  {| id := lit "w0w0w"; file := {| name := lit "leia-me.txt"; size := 20 |};
     inferredType := unknown |}.

(** A document with the two naturalization types exchanged. *)
Definition swapNaturalization (d : UploadedDoc) : UploadedDoc :=
  {| id := id d; file := file d;
     inferredType :=
       match inferredType d with
       | certidao_naturalizacao => certidao_negativa_naturalizacao
       | certidao_negativa_naturalizacao => certidao_naturalizacao
       | t => t
       end |}.

(** Every stored document has the type [guessDocType] gives its file name. *)
Definition classifiedByName (docs : list UploadedDoc) : Prop :=
  Forall (fun d => inferredType d = guessDocType (name (file d))) docs.

(* ===================================================================== *)
(** ** Facts about strings and patterns *)
(* ===================================================================== *)

Section Matcher.

(** The matcher computes the relation. *)
Lemma matchRe_Matches (r : RegExp) :
  forall (s : jsstring) (k : jsstring -> bool),
    matchRe r s k = true <-> exists rest, Matches r s rest /\ k rest = true.
Proof.
  induction r as [c | r1 IH1 r2 IH2 | r1 IH1 r2 IH2 | r IH | | ]; intros s k; simpl.
  - destruct s as [| x s'].
    + split; [discriminate | intros (rest & H & _); inversion H].
    + rewrite andb_true_iff, N.eqb_eq. split.
      * intros [Hc Hk]. exists s'. split; [by constructor | done].
      * intros (rest & H & Hk). inversion H; subst. done.
  - rewrite IH1. split.
    + intros (s1 & H1 & H2). apply IH2 in H2 as (s2 & H2 & Hk).
      exists s2. split; [by econstructor | done].
    + intros (s2 & H & Hk). inversion H; subst.
      eexists. split; [eassumption |]. apply IH2. eauto.
  - rewrite orb_true_iff, IH1, IH2. split.
    + intros [(rest & H & Hk) | (rest & H & Hk)]; exists rest;
        (split; [| done]); [by apply M_AltL | by apply M_AltR].
    + intros (rest & H & Hk). inversion H; subst; eauto.
  - rewrite orb_true_iff, IH. split.
    + intros [(rest & H & Hk) | Hk].
      * exists rest. split; [by apply M_OptSome | done].
      * exists s. split; [apply M_OptNone | done].
    + intros (rest & H & Hk). inversion H; subst; eauto.
  - split.
    + intros Hk. exists s. split; [constructor | done].
    + intros (rest & H & Hk). inversion H; subst. done.
  - destruct s as [| x s'].
    + split.
      * intros Hk. exists []. split; [constructor | done].
      * intros (rest & H & Hk). inversion H; subst. done.
    + split; [discriminate | intros (rest & H & _); inversion H].
Qed.

(** [test] finds a match at some suffix of the input. *)
Lemma test_Matches (r : RegExp) (s : jsstring) :
  test r s = true <-> exists pre suf rest, s = pre ++ suf /\ Matches r suf rest.
Proof.
  induction s as [| x s IH]; simpl; rewrite orb_true_iff, matchRe_Matches.
  - split.
    + intros [(rest & H & _) | Hf]; [| discriminate]. by exists [], [], rest.
    + intros (pre & suf & rest & Heq & H).
      symmetry in Heq. apply app_eq_nil in Heq as [-> ->]. eauto.
  - rewrite IH. split.
    + intros [(rest & H & _) | (pre & suf & rest & -> & H)].
      * by exists [], (x :: s), rest.
      * by exists (x :: pre), suf, rest.
    + intros (pre & suf & rest & Heq & H). destruct pre as [| y pre]; simpl in Heq.
      * subst suf. left. eauto.
      * injection Heq as -> ->. right. eauto.
Qed.

(** Against a pattern character that is not an upper-case letter, the
    comparison of the [i] flag is the comparison after ASCII case folding. *)
Lemma canonicalize_asciiLower (x c : N) :
  asciiLower c = c -> canonicalize x = canonicalize c <-> asciiLower x = c.
Proof.
  unfold asciiLower, canonicalize.
  repeat match goal with
         | |- context [(?a <=? ?b)%N] => destruct (N.leb_spec a b)
         end; simpl; lia.
Qed.

End Matcher.

(** Takes apart a match of a pattern that is given constructor by
    constructor. *)
Ltac invert_matches :=
  repeat match goal with
         | H : Matches (Chr _) _ _ |- _ => inversion H; subst; clear H
         | H : Matches (Seq _ _) _ _ |- _ => inversion H; subst; clear H
         | H : Matches (Alt _ _) _ _ |- _ => inversion H; subst; clear H
         | H : Matches (Opt _) _ _ |- _ => inversion H; subst; clear H
         | H : Matches Empty _ _ |- _ => inversion H; subst; clear H
         | H : Matches AssertEnd _ _ |- _ => inversion H; subst; clear H
         end.

Ltac fold_case :=
  repeat match goal with
         | H : canonicalize _ = canonicalize _ |- _ =>
             apply canonicalize_asciiLower in H; [| reflexivity]
         end.

Ltac unfold_case :=
  repeat match goal with
         | H : asciiLower _ = _ |- _ =>
             apply canonicalize_asciiLower in H; [| reflexivity]
         end.

(** Splits [map f s = [c1; ...; cn]] into the elements of [s]. *)
Ltac split_suffix H :=
  repeat match type of H with
         | map _ ?s = _ :: _ => destruct s; simpl in H; [discriminate |];
                               injection H as ? H
         | map _ ?s = [] => destruct s; simpl in H; [clear H | discriminate]
         end.

Create HintDb regexp.
#[local] Hint Constructors Matches : regexp.

Lemma isPDF_spec (n : jsstring) :
  isPDF n = true <-> endsWithIgnoreCase n (lit ".pdf").
Proof.
  unfold isPDF, endsWithIgnoreCase. rewrite test_Matches.
  let r := eval vm_compute in isPDF_re in change isPDF_re with r.
  let e := eval vm_compute in (lit ".pdf") in change (lit ".pdf") with e.
  split.
  - intros (pre & suf & rest & -> & H). exists pre, suf. split; [done |].
    invert_matches. fold_case. simpl. congruence.
  - intros (pre & suf & -> & H). exists pre, suf, []. split; [done |].
    split_suffix H. unfold_case. eauto 12 with regexp.
Qed.

Lemma isImage_spec (n : jsstring) :
  isImage n = true <->
  endsWithIgnoreCase n (lit ".png") \/ endsWithIgnoreCase n (lit ".jpg") \/
  endsWithIgnoreCase n (lit ".jpeg") \/ endsWithIgnoreCase n (lit ".webp") \/
  endsWithIgnoreCase n (lit ".gif").
Proof.
  unfold isImage, endsWithIgnoreCase. rewrite test_Matches.
  let r := eval vm_compute in isImage_re in change isImage_re with r.
  repeat match goal with
         | |- context [lit ?s] =>
             let e := eval vm_compute in (lit s) in change (lit s) with e
         end.
  split.
  - intros (pre & suf & rest & -> & H).
    invert_matches; fold_case.
    + left. eexists _, _. split; [done |]. simpl. congruence.
    + right; right; left. eexists _, _. split; [done |]. simpl. congruence.
    + right; left. eexists _, _. split; [done |]. simpl. congruence.
    + right; right; right; left. eexists _, _. split; [done |]. simpl. congruence.
    + right; right; right; right. eexists _, _. split; [done |]. simpl. congruence.
  - intros [H | [H | [H | [H | H]]]]; destruct H as (pre & suf & -> & H);
      exists pre, suf, []; (split; [done |]);
      split_suffix H; unfold_case.
    + eapply M_Seq; [eauto with regexp |].
      eapply M_Seq; [| constructor]. apply M_AltL. eauto 10 with regexp.
    + eapply M_Seq; [eauto with regexp |].
      eapply M_Seq; [| constructor]. apply M_AltR, M_AltL.
      eapply M_Seq; [eauto 10 with regexp |].
      eapply M_Seq; [apply M_OptNone | eauto with regexp].
    + eapply M_Seq; [eauto with regexp |].
      eapply M_Seq; [| constructor]. apply M_AltR, M_AltL.
      eapply M_Seq; [eauto 10 with regexp |].
      eapply M_Seq; [apply M_OptSome; eauto with regexp | eauto with regexp].
    + eapply M_Seq; [eauto with regexp |].
      eapply M_Seq; [| constructor]. apply M_AltR, M_AltR, M_AltL. eauto 12 with regexp.
    + eapply M_Seq; [eauto with regexp |].
      eapply M_Seq; [| constructor]. apply M_AltR, M_AltR, M_AltR. eauto 10 with regexp.
Qed.

(** The test of one document in [pdfOrImg] is the test for a recognised
    extension. *)
Lemma isPDF_or_isImage_spec (n : jsstring) :
  isPDF n || isImage n = true <-> hasRecognizedExtension n.
Proof.
  rewrite orb_true_iff, isPDF_spec, isImage_spec.
  unfold hasRecognizedExtension, recognizedExtensions. split.
  - intros [H | [H | [H | [H | [H | H]]]]]; eexists; (split; [| exact H]);
      rewrite !elem_of_cons; tauto.
  - intros (ext & Hin & H). rewrite !elem_of_cons, elem_of_nil in Hin.
    destruct Hin as [-> | [-> | [-> | [-> | [-> | [-> | []]]]]]]; tauto.
Qed.

(* ===================================================================== *)
(** ** Facts about the scorer *)
(* ===================================================================== *)

Section Blocks.

Lemma has_typesOf (docs : list UploadedDoc) (t : InferredType) :
  has (typesOf docs) t = true <-> exists d, d ∈ docs /\ inferredType d = t.
Proof.
  unfold has, typesOf. rewrite bool_decide_eq_true, elem_of_list_to_set.
  rewrite list_elem_of_In, in_map_iff. split.
  - intros (d & Ht & Hd). exists d. by rewrite list_elem_of_In.
  - intros (d & Hd & Ht). exists d. by rewrite <- list_elem_of_In.
Qed.

(** Every value of [relationshipToYou] is a non-empty string. *)
Lemma relationship_truthy (r : Relationship) :
  truthy (relationship_string r) = true.
Proof. by destruct r. Qed.

(** Each block adds to [score] an amount that does not depend on it. *)
Lemma baseInfoCompleteness_shift a s :
  baseInfoCompleteness a s = s + baseInfoCompleteness a 0.
Proof.
  unfold baseInfoCompleteness.
  destruct (truthy (fullName a)), (truthy (email a)),
    (truthy (country a)), (truthy (city a)); lia.
Qed.

Lemma lineageEssentials_shift l s :
  lineageEssentials l s = s + lineageEssentials l 0.
Proof.
  unfold lineageEssentials. rewrite relationship_truthy.
  destruct (truthy (italianAncestorName l)),
    (truthy_opt (italianAncestorBirthYear l)); lia.
Qed.

Lemma documentPresenceBoosts_shift t s :
  documentPresenceBoosts t s = s + documentPresenceBoosts t 0.
Proof.
  unfold documentPresenceBoosts.
  destruct (has t certidao_nascimento), (has t certidao_casamento),
    (has t certidao_obito), (has t certidao_negativa_naturalizacao),
    (has t certidao_naturalizacao), (has t apostila_haya),
    (has t traducao_juramentada); simpl; lia.
Qed.

Lemma riskAdjustments_shift l s :
  riskAdjustments l s = s + riskAdjustments l 0.
Proof.
  unfold riskAdjustments.
  destruct (anyNaturalizationInLine l), (naturalizedBeforeChildBirth l),
    (anyFemaleBefore1948 l); lia.
Qed.

Lemma baseInfoCompleteness_bounds a : 0 <= baseInfoCompleteness a 0 <= 16.
Proof.
  unfold baseInfoCompleteness.
  destruct (truthy (fullName a)), (truthy (email a)),
    (truthy (country a)), (truthy (city a)); lia.
Qed.

Lemma lineageEssentials_bounds l : 6 <= lineageEssentials l 0 <= 22.
Proof.
  unfold lineageEssentials. rewrite relationship_truthy.
  destruct (truthy (italianAncestorName l)),
    (truthy_opt (italianAncestorBirthYear l)); lia.
Qed.

Lemma documentPresenceBoosts_bounds t : 0 <= documentPresenceBoosts t 0 <= 50.
Proof.
  unfold documentPresenceBoosts.
  destruct (has t certidao_nascimento), (has t certidao_casamento),
    (has t certidao_obito), (has t certidao_negativa_naturalizacao),
    (has t certidao_naturalizacao), (has t apostila_haya),
    (has t traducao_juramentada); simpl; lia.
Qed.

Lemma riskAdjustments_bounds l : -41 <= riskAdjustments l 0 <= 0.
Proof.
  unfold riskAdjustments.
  destruct (anyNaturalizationInLine l), (naturalizedBeforeChildBirth l),
    (anyFemaleBefore1948 l); lia.
Qed.

(** The sum the source has accumulated before the format check. *)
Lemma scoreBeforeFormat_sum l docs a :
  scoreBeforeFormat l docs a =
    baseInfoCompleteness a 0 + lineageEssentials l 0
    + documentPresenceBoosts (typesOf docs) 0 + riskAdjustments l 0.
Proof.
  unfold scoreBeforeFormat. cbv zeta.
  rewrite riskAdjustments_shift, documentPresenceBoosts_shift, lineageEssentials_shift.
  lia.
Qed.

Lemma scoreBeforeClamp_bounds l docs a : -35 <= scoreBeforeClamp l docs a <= 94.
Proof.
  unfold scoreBeforeClamp, fileFormatSanity. rewrite scoreBeforeFormat_sum.
  pose proof (baseInfoCompleteness_bounds a).
  pose proof (lineageEssentials_bounds l).
  pose proof (documentPresenceBoosts_bounds (typesOf docs)).
  pose proof (riskAdjustments_bounds l).
  destruct (pdfOrImg docs); lia.
Qed.

Lemma score_scoreQuality l docs a :
  score (scoreQuality l docs a) = Z.max 0 (Z.min 100 (scoreBeforeClamp l docs a)).
Proof. reflexivity. Qed.

(** The documents reach the result through the set of their types and the
    format check only. *)
Lemma scoreQuality_ext l a docs docs' :
  typesOf docs = typesOf docs' -> pdfOrImg docs = pdfOrImg docs' ->
  scoreQuality l docs a = scoreQuality l docs' a.
Proof.
  intros Ht Hf.
  unfold scoreQuality, scoreBeforeClamp, scoreBeforeFormat, fileFormatSanity.
  by rewrite Ht, Hf.
Qed.

Lemma pdfOrImg_Forall docs :
  pdfOrImg docs = true <->
  Forall (fun d => hasRecognizedExtension (name (file d))) docs.
Proof.
  unfold pdfOrImg, every. induction docs as [| d docs IH]; simpl.
  - split; [constructor | done].
  - rewrite andb_true_iff, Forall_cons, IH, isPDF_or_isImage_spec. done.
Qed.

Lemma pdfOrImg_app docs docs' :
  pdfOrImg (docs ++ docs') = pdfOrImg docs && pdfOrImg docs'.
Proof. apply forallb_app. Qed.

Lemma typesOf_app docs docs' :
  typesOf (docs ++ docs') = typesOf docs ∪ typesOf docs'.
Proof. unfold typesOf. by rewrite map_app, list_to_set_app_L. Qed.

Lemma typesOf_cons d docs :
  typesOf (d :: docs) = {[ inferredType d ]} ∪ typesOf docs.
Proof. reflexivity. Qed.

Lemma has_union t1 t2 x : has (t1 ∪ t2) x = has t1 x || has t2 x.
Proof.
  unfold has. apply eq_true_iff_eq.
  rewrite orb_true_iff, !bool_decide_eq_true. set_solver.
Qed.

Lemma has_singleton x y : has {[ x ]} y = bool_decide (x = y).
Proof. unfold has. apply bool_decide_ext. set_solver. Qed.

End Blocks.

(* ===================================================================== *)
(** ** The classifier *)
(* ===================================================================== *)

(** Whatever the lower-casing function, the branch of [guessDocType] that
    returns ["certidao_negativa_naturalizacao"] is never taken: the test on
    ["naturaliza"] before it has already returned. *)
Lemma guessDocTypeWith_never_negativa (lower : jsstring -> jsstring) (n : jsstring) :
  guessDocTypeWith lower n <> certidao_negativa_naturalizacao.
Proof.
  unfold guessDocTypeWith. cbv zeta.
  destruct (includes (lower n) (lit "nascimento")); [discriminate |].
  destruct (includes (lower n) (lit "casamento")); [discriminate |].
  destruct (includes (lower n) (lit "óbito") || includes (lower n) (lit "obito"));
    [discriminate |].
  destruct (includes (lower n) (lit "naturaliza")); [discriminate |].
  rewrite andb_false_r.
  repeat match goal with
         | |- (if ?b then _ else _) <> _ => destruct b; [discriminate |]
         end.
  discriminate.
Qed.

(** A name with both keywords gets the type of the first of the four tests
    that come before the test for the pair. *)
Lemma guessDocTypeWith_both_keywords (lower : jsstring -> jsstring) (n : jsstring) :
  includes (lower n) (lit "negativa") = true ->
  includes (lower n) (lit "naturaliza") = true ->
  guessDocTypeWith lower n ∈
    [certidao_nascimento; certidao_casamento; certidao_obito; certidao_naturalizacao].
Proof.
  intros _ Hnat. unfold guessDocTypeWith. cbv zeta. rewrite Hnat.
  repeat match goal with
         | |- (if ?b then _ else _) ∈ _ => destruct b
         end; rewrite !elem_of_cons; tauto.
Qed.

(** C1.  The claim: every file name containing both "negativa" and
    "naturaliza" is classified as the negative naturalization certificate and
    never as the naturalization certificate.  The code does otherwise: on
    [certidao_negativa_naturalizacao.pdf], which contains both keywords and
    none of the keywords tested earlier, [guessDocType] returns
    ["certidao_naturalizacao"]; and no file name at all is classified as
    ["certidao_negativa_naturalizacao"]. *)
Theorem C1_negativa_classified_as_naturalizacao :
  let f := lit "certidao_negativa_naturalizacao.pdf" in
  includes (toLowerCase f) (lit "negativa") = true /\
  includes (toLowerCase f) (lit "naturaliza") = true /\
  includes (toLowerCase f) (lit "nascimento") = false /\
  includes (toLowerCase f) (lit "casamento") = false /\
  includes (toLowerCase f) (lit "óbito") || includes (toLowerCase f) (lit "obito") = false /\
  guessDocType f = certidao_naturalizacao /\
  (forall n, guessDocType n <> certidao_negativa_naturalizacao).
Proof.
  repeat split; try (vm_compute; reflexivity).
  intros n. apply guessDocTypeWith_never_negativa.
Qed.

(** The file of C1 as [onFilePick] records it. *)
Lemma picked_negativa_inferredType :
  inferredType doc_negativa_naturalizacao = certidao_naturalizacao.
Proof. vm_compute; reflexivity. Qed.

(* ===================================================================== *)
(** ** The range of the score *)
(* ===================================================================== *)

(** C2.  The score of every evaluation is an integer between 0 and 100: it is
    [max(0, min(100, sum))] of the accumulated sum.  With every penalty and no
    bonus but the one of the relationship, which is always there, the sum is
    -35 and the score 0; with every bonus and no penalty the sum and the score
    are 94. *)
Theorem C2_score_in_range :
  (forall l docs a,
      0 <= score (scoreQuality l docs a) <= 100 /\
      score (scoreQuality l docs a) = Z.max 0 (Z.min 100 (scoreBeforeClamp l docs a))) /\
  (scoreBeforeClamp worstLineage [doc_notes] emptyApplicant = -35 /\
   score (scoreQuality worstLineage [doc_notes] emptyApplicant) = 0) /\
  (scoreBeforeClamp fullLineage allDocs fullApplicant = 94 /\
   score (scoreQuality fullLineage allDocs fullApplicant) = 94).
Proof.
  split; [| by vm_compute].
  intros l docs a. rewrite score_scoreQuality. lia.
Qed.

(** C9.  No evaluation scores more than 94, the sum of all the bonuses; the
    upper clamp at 100 never changes the sum, no score lies in 95..100, and
    94 is reached. *)
Theorem C9_score_at_most_94 :
  (forall l docs a,
      score (scoreQuality l docs a) <= 94 /\
      Z.min 100 (scoreBeforeClamp l docs a) = scoreBeforeClamp l docs a /\
      ~ (95 <= score (scoreQuality l docs a) <= 100)) /\
  16 + 22 + 50 + 6 = 94 /\
  score (scoreQuality fullLineage allDocs fullApplicant) = 94.
Proof.
  split; [| by vm_compute].
  intros l docs a. rewrite score_scoreQuality.
  pose proof (scoreBeforeClamp_bounds l docs a). lia.
Qed.

(* ===================================================================== *)
(** ** The label *)
(* ===================================================================== *)

(** C3.  The label follows the clamped score down the ladder 80, 60, 40,
    the first threshold reached deciding. *)
Theorem C3_label_ladder (l : LineageInfo) (docs : list UploadedDoc) (a : Applicant) :
  (80 <= score (scoreQuality l docs a) ->
     label (scoreQuality l docs a) = label_excellent) /\
  (60 <= score (scoreQuality l docs a) < 80 ->
     label (scoreQuality l docs a) = label_good) /\
  (40 <= score (scoreQuality l docs a) < 60 ->
     label (scoreQuality l docs a) = label_fair) /\
  (score (scoreQuality l docs a) < 40 ->
     label (scoreQuality l docs a) = label_low).
Proof.
  unfold scoreQuality. cbv zeta. simpl score. simpl label.
  set (s := Z.max 0 (Z.min 100 (scoreBeforeClamp l docs a))).
  destruct (Z.leb_spec 80 s); [repeat split; intros; (reflexivity || lia) |].
  destruct (Z.leb_spec 60 s); [repeat split; intros; (reflexivity || lia) |].
  destruct (Z.leb_spec 40 s); repeat split; intros; (reflexivity || lia).
Qed.

(** The four labels are four different strings. *)
Lemma labels_distinct :
  NoDup [label_excellent; label_good; label_fair; label_low].
Proof.
  repeat (apply NoDup_cons; split; [rewrite ?elem_of_cons, elem_of_nil; vm_compute; intuition discriminate |]).
  apply NoDup_nil. done.
Qed.

(** Evaluations scoring exactly 80, 60, 40 and 39, and their labels. *)
Lemma C3_label_ladder_witness :
  (score (scoreQuality fullLineage
            [doc_nascimento; doc_naturalizacao; doc_apostila; doc_traducao] fullApplicant) = 80 /\
   label (scoreQuality fullLineage
            [doc_nascimento; doc_naturalizacao; doc_apostila; doc_traducao] fullApplicant)
     = label_excellent) /\
  (score (scoreQuality fullLineage [doc_nascimento; doc_traducao] fullApplicant) = 60 /\
   label (scoreQuality fullLineage [doc_nascimento; doc_traducao] fullApplicant)
     = label_good) /\
  (score (scoreQuality yearOnlyLineage [doc_traducao] fullApplicant) = 40 /\
   label (scoreQuality yearOnlyLineage [doc_traducao] fullApplicant) = label_fair) /\
  (score (scoreQuality namedLineage [doc_naturalizacao] nameOnlyApplicant) = 39 /\
   label (scoreQuality namedLineage [doc_naturalizacao] nameOnlyApplicant) = label_low).
Proof.
  assert (E80 : score (scoreQuality fullLineage
                  [doc_nascimento; doc_naturalizacao; doc_apostila; doc_traducao]
                  fullApplicant) = 80) by (vm_compute; reflexivity).
  assert (E60 : score (scoreQuality fullLineage [doc_nascimento; doc_traducao]
                  fullApplicant) = 60) by (vm_compute; reflexivity).
  assert (E40 : score (scoreQuality yearOnlyLineage [doc_traducao] fullApplicant) = 40)
    by (vm_compute; reflexivity).
  assert (E39 : score (scoreQuality namedLineage [doc_naturalizacao] nameOnlyApplicant) = 39)
    by (vm_compute; reflexivity).
  split; [| split; [| split]].
  - split; [exact E80 |].
    destruct (C3_label_ladder fullLineage
                [doc_nascimento; doc_naturalizacao; doc_apostila; doc_traducao]
                fullApplicant) as (H & _).
    apply H. rewrite E80. lia.
  - split; [exact E60 |].
    destruct (C3_label_ladder fullLineage [doc_nascimento; doc_traducao] fullApplicant)
      as (_ & H & _).
    apply H. rewrite E60. lia.
  - split; [exact E40 |].
    destruct (C3_label_ladder yearOnlyLineage [doc_traducao] fullApplicant)
      as (_ & _ & H & _).
    apply H. rewrite E40. lia.
  - split; [exact E39 |].
    destruct (C3_label_ladder namedLineage [doc_naturalizacao] nameOnlyApplicant)
      as (_ & _ & _ & H).
    apply H. rewrite E39. lia.
Defined.

(* ===================================================================== *)
(** ** Scenario *)
(* ===================================================================== *)

(** C5.  With every applicant field empty, the lineage as the form starts it
    but for [naturalizedBeforeChildBirth], and no document, the sum is
    6 + 6 - 25 = -13, the score 0, the label the lowest one, and the flags are
    the four for the birth certificate, the marriage certificate, the proof of
    naturalization and the disqualifying naturalization, in that order. *)
Theorem C5_blocked_empty_scenario :
  scoreBeforeClamp blockedLineage [] emptyApplicant = -13 /\
  scoreQuality blockedLineage [] emptyApplicant =
    {| score := 0;
       label := label_low;
       flags := [flag_missing_birth; flag_missing_marriage;
                 flag_missing_naturalization_proof;
                 flag_disqualifying_naturalization] |}.
Proof. split; vm_compute; reflexivity. Qed.

(* ===================================================================== *)
(** ** The document bonuses *)
(* ===================================================================== *)

Lemma has_typesOf_snoc (docs : list UploadedDoc) (d : UploadedDoc) (t : InferredType) :
  has (typesOf (docs ++ [d])) t = has (typesOf docs) t || bool_decide (inferredType d = t).
Proof.
  rewrite typesOf_app, has_union. f_equal.
  unfold typesOf. simpl. rewrite (right_id_L ∅ (∪)). apply has_singleton.
Qed.

(** A birth certificate put into a list without one adds 10 to the sum. *)
Lemma scoreBeforeFormat_birth_added l a docs d :
  has (typesOf docs) certidao_nascimento = false ->
  inferredType d = certidao_nascimento ->
  scoreBeforeFormat l (docs ++ [d]) a = scoreBeforeFormat l docs a + 10.
Proof.
  intros Hno Hd. rewrite !scoreBeforeFormat_sum.
  unfold documentPresenceBoosts. rewrite !has_typesOf_snoc, Hd, Hno. simpl.
  destruct (has (typesOf docs) certidao_casamento),
    (has (typesOf docs) certidao_obito),
    (has (typesOf docs) certidao_negativa_naturalizacao),
    (has (typesOf docs) certidao_naturalizacao),
    (has (typesOf docs) apostila_haya),
    (has (typesOf docs) traducao_juramentada); simpl; lia.
Qed.

(** C4, the claim as it stands fails: with the disqualifying naturalization
    set, nothing else filled in and no document, the sum is -13 and the score
    0; after a birth certificate in PDF is added the sum is -3 and the score
    still 0, not 10, although the score was not at the ceiling. *)
Lemma C4_counterexample :
  has (typesOf []) certidao_nascimento = false /\
  inferredType doc_nascimento = certidao_nascimento /\
  score (scoreQuality blockedLineage [] emptyApplicant) = 0 /\
  score (scoreQuality blockedLineage ([] ++ [doc_nascimento]) emptyApplicant) = 0 /\
  score (scoreQuality blockedLineage [] emptyApplicant) <> 100 /\
  score (scoreQuality blockedLineage ([] ++ [doc_nascimento]) emptyApplicant)
    <> score (scoreQuality blockedLineage [] emptyApplicant) + 10.
Proof.
  assert (E0 : score (scoreQuality blockedLineage [] emptyApplicant) = 0)
    by (vm_compute; reflexivity).
  assert (E1 : score (scoreQuality blockedLineage ([] ++ [doc_nascimento]) emptyApplicant) = 0)
    by (vm_compute; reflexivity).
  rewrite E0, E1.
  split; [vm_compute; reflexivity |]. split; [vm_compute; reflexivity |].
  repeat (split; [lia |]). lia.
Qed.

(** The format check alone can take back part of the bonus: a birth
    certificate named [nascimento.docx] added to the empty list moves the
    score from 12 to 16. *)
Lemma birth_certificate_with_other_extension :
  inferredType doc_nascimento_docx = certidao_nascimento /\
  score (scoreQuality defaultLineage [] emptyApplicant) = 12 /\
  score (scoreQuality defaultLineage ([] ++ [doc_nascimento_docx]) emptyApplicant) = 16.
Proof. repeat split; vm_compute; reflexivity. Qed.

(** When the format check gives the same answer after a file is appended:
    the new name has a recognised extension, or a name already in the list
    has none. *)
Lemma pdfOrImg_unchanged_iff (docs : list UploadedDoc) (d : UploadedDoc) :
  pdfOrImg (docs ++ [d]) = pdfOrImg docs <->
  hasRecognizedExtension (name (file d)) \/
  ~ Forall (fun d0 => hasRecognizedExtension (name (file d0))) docs.
Proof.
  rewrite <- pdfOrImg_Forall, <- isPDF_or_isImage_spec, pdfOrImg_app.
  unfold pdfOrImg at 2, every. simpl. rewrite andb_true_r.
  destruct (pdfOrImg docs), (isPDF (name (file d)) || isImage (name (file d)));
    simpl; intuition congruence.
Qed.

(** C4, amended.  A birth certificate appended to a list that has none raises
    the score by exactly 10 if and only if the sum before was not negative
    (the lower clamp at 0 does not absorb the bonus) and the format check gives
    the same answer with the new file as without it.  The ceiling of 100 plays
    no part. *)
Theorem C4_birth_certificate_added
    (l : LineageInfo) (a : Applicant) (docs : list UploadedDoc) (d : UploadedDoc) :
  has (typesOf docs) certidao_nascimento = false ->
  inferredType d = certidao_nascimento ->
  score (scoreQuality l (docs ++ [d]) a) = score (scoreQuality l docs a) + 10
  <-> 0 <= scoreBeforeClamp l docs a /\ pdfOrImg (docs ++ [d]) = pdfOrImg docs.
Proof.
  intros Hno Hd. rewrite !score_scoreQuality.
  pose proof (scoreBeforeClamp_bounds l docs a) as Hb.
  pose proof (scoreBeforeClamp_bounds l (docs ++ [d]) a) as Hb'.
  unfold scoreBeforeClamp, fileFormatSanity in *.
  rewrite (scoreBeforeFormat_birth_added l a docs d Hno Hd) in *.
  rewrite pdfOrImg_app in *.
  destruct (pdfOrImg docs), (pdfOrImg [d]); simpl in *;
    (split; [intros H; split; [lia | first [reflexivity | exfalso; lia]]
            | intros [H1 H2]; first [discriminate | lia]]).
Qed.

Lemma C4_birth_certificate_added_witness :
  has (typesOf []) certidao_nascimento = false /\
  inferredType doc_nascimento = certidao_nascimento /\
  score (scoreQuality defaultLineage ([] ++ [doc_nascimento]) emptyApplicant)
    = score (scoreQuality defaultLineage [] emptyApplicant) + 10.
Proof.
  split; [vm_compute; reflexivity |]. split; [vm_compute; reflexivity |].
  apply (C4_birth_certificate_added defaultLineage emptyApplicant [] doc_nascimento).
  - vm_compute; reflexivity.
  - vm_compute; reflexivity.
  - split; [vm_compute; discriminate | vm_compute; reflexivity].
Defined.

Lemma has_typesOf_fmap (f : UploadedDoc -> UploadedDoc) docs t :
  has (typesOf (map f docs)) t = true <-> exists d, d ∈ docs /\ inferredType (f d) = t.
Proof.
  rewrite has_typesOf. split.
  - intros (d' & Hin & Ht). apply list_elem_of_In, in_map_iff in Hin as (d & <- & Hin).
    exists d. by rewrite list_elem_of_In.
  - intros (d & Hin & Ht). exists (f d). split; [| done].
    apply list_elem_of_In, in_map. by apply list_elem_of_In.
Qed.

(** Counting the naturalization documents as unknown keeps every other
    scored type and the format check, and leaves neither naturalization
    type. *)
Lemma has_withoutNaturalization docs t :
  has (typesOf (withoutNaturalization docs)) t =
    match t with
    | certidao_naturalizacao | certidao_negativa_naturalizacao => false
    | unknown => has (typesOf docs) unknown
                 || has (typesOf docs) certidao_naturalizacao
                 || has (typesOf docs) certidao_negativa_naturalizacao
    | _ => has (typesOf docs) t
    end.
Proof.
  apply eq_true_iff_eq. unfold withoutNaturalization.
  destruct t; rewrite ?orb_true_iff, has_typesOf_fmap, ?has_typesOf; simpl;
    ( split;
      [ intros (d & Hin & Ht); destruct (inferredType d) eqn:E; try discriminate;
        eauto 6
      | intros H;
        repeat match goal with
               | H : _ \/ _ |- _ => destruct H as [H | H]
               | H : false = true |- _ => discriminate H
               end;
        destruct H as (d & Hin & Ht); exists d; (split; [done |]); by rewrite Ht ] ).
Qed.

Lemma pdfOrImg_withoutNaturalization docs :
  pdfOrImg (withoutNaturalization docs) = pdfOrImg docs.
Proof.
  unfold pdfOrImg, every, withoutNaturalization.
  induction docs as [| d docs IH]; [done |]. cbn [map forallb]. by rewrite IH.
Qed.

(** The sum with at least one naturalization type against the sum with
    neither, all other scored types and the format check being the same. *)
Lemma naturalization_points_relative l a docs docs' :
  has (typesOf docs) certidao_negativa_naturalizacao
    || has (typesOf docs) certidao_naturalizacao = true ->
  has (typesOf docs') certidao_negativa_naturalizacao = false ->
  has (typesOf docs') certidao_naturalizacao = false ->
  has (typesOf docs') certidao_nascimento = has (typesOf docs) certidao_nascimento ->
  has (typesOf docs') certidao_casamento = has (typesOf docs) certidao_casamento ->
  has (typesOf docs') certidao_obito = has (typesOf docs) certidao_obito ->
  has (typesOf docs') apostila_haya = has (typesOf docs) apostila_haya ->
  has (typesOf docs') traducao_juramentada = has (typesOf docs) traducao_juramentada ->
  pdfOrImg docs' = pdfOrImg docs ->
  scoreBeforeClamp l docs a = scoreBeforeClamp l docs' a + 12.
Proof.
  intros Hyes Hneg Hnat H1 H2 H3 H4 H5 Hfmt.
  unfold scoreBeforeClamp, fileFormatSanity. rewrite !scoreBeforeFormat_sum, Hfmt.
  unfold documentPresenceBoosts. rewrite Hyes, Hneg, Hnat, H1, H2, H3, H4, H5. simpl.
  destruct (has (typesOf docs) certidao_nascimento),
    (has (typesOf docs) certidao_casamento),
    (has (typesOf docs) certidao_obito),
    (has (typesOf docs) apostila_haya),
    (has (typesOf docs) traducao_juramentada),
    (pdfOrImg docs); lia.
Qed.

(** C6.  Proof of naturalization counts 12, once.  For every list with at
    least one of the two naturalization types, also with both, the sum is 12
    above the sum of the same documents with the naturalization ones counted
    as unknown; the score [scoreQuality] returns is that sum clamped, so it is
    exactly 12 above the score without them whenever the sum without them is
    not negative, and never more than 12 above it. *)
Theorem C6_naturalization_points
    (l : LineageInfo) (a : Applicant) (docs : list UploadedDoc) :
  has (typesOf docs) certidao_negativa_naturalizacao
    || has (typesOf docs) certidao_naturalizacao = true ->
  scoreBeforeClamp l docs a = scoreBeforeClamp l (withoutNaturalization docs) a + 12 /\
  score (scoreQuality l docs a)
    = Z.max 0 (Z.min 100 (scoreBeforeClamp l (withoutNaturalization docs) a + 12)) /\
  (0 <= scoreBeforeClamp l (withoutNaturalization docs) a ->
   score (scoreQuality l docs a)
     = score (scoreQuality l (withoutNaturalization docs) a) + 12) /\
  score (scoreQuality l (withoutNaturalization docs) a)
    <= score (scoreQuality l docs a)
    <= score (scoreQuality l (withoutNaturalization docs) a) + 12.
Proof.
  intros Hyes.
  assert (Hsum : scoreBeforeClamp l docs a
                 = scoreBeforeClamp l (withoutNaturalization docs) a + 12).
  { apply naturalization_points_relative; try done;
      first [ apply has_withoutNaturalization | apply pdfOrImg_withoutNaturalization ]. }
  pose proof (scoreBeforeClamp_bounds l docs a).
  pose proof (scoreBeforeClamp_bounds l (withoutNaturalization docs) a).
  rewrite !score_scoreQuality, Hsum.
  split; [reflexivity |]. split; [reflexivity |]. split; [intros Hpos |]; lia.
Qed.

(** Both naturalization types present; and a single certificate whose name
    fails the format check. *)
Lemma C6_naturalization_points_witness :
  (has (typesOf [doc_naturalizacao; doc_negativa_typed]) certidao_negativa_naturalizacao = true /\
   has (typesOf [doc_naturalizacao; doc_negativa_typed]) certidao_naturalizacao = true /\
   score (scoreQuality fullLineage [doc_naturalizacao; doc_negativa_typed] fullApplicant)
   = score (scoreQuality fullLineage
              (withoutNaturalization [doc_naturalizacao; doc_negativa_typed])
              fullApplicant) + 12) /\
  score (scoreQuality defaultLineage [doc_naturalizacao_docx] emptyApplicant)
  = score (scoreQuality defaultLineage (withoutNaturalization [doc_naturalizacao_docx])
             emptyApplicant) + 12.
Proof.
  split; [split; [vm_compute; reflexivity | split; [vm_compute; reflexivity |]] |].
  - destruct (C6_naturalization_points fullLineage fullApplicant
                [doc_naturalizacao; doc_negativa_typed]) as (_ & _ & H & _).
    + vm_compute; reflexivity.
    + apply H. vm_compute; discriminate.
  - destruct (C6_naturalization_points defaultLineage emptyApplicant
                [doc_naturalizacao_docx]) as (_ & _ & H & _).
    + vm_compute; reflexivity.
    + apply H. vm_compute; discriminate.
Defined.

(* ===================================================================== *)
(** ** The format check *)
(* ===================================================================== *)

(** C7.  The format check adds 6 exactly when the name of every document
    ends, letter case apart, in one of [.pdf], [.png], [.jpg], [.jpeg],
    [.webp], [.gif], and nothing otherwise; with no document it adds 6.  The
    score [scoreQuality] returns is the sum before the check, plus these 6 or
    nothing, clamped. *)
Theorem C7_format_points (l : LineageInfo) (docs : list UploadedDoc) (a : Applicant) :
  (scoreBeforeClamp l docs a = scoreBeforeFormat l docs a + 6
   <-> Forall (fun d => hasRecognizedExtension (name (file d))) docs) /\
  (scoreBeforeClamp l docs a = scoreBeforeFormat l docs a
   <-> ~ Forall (fun d => hasRecognizedExtension (name (file d))) docs) /\
  scoreBeforeClamp l [] a = scoreBeforeFormat l [] a + 6 /\
  (Forall (fun d => hasRecognizedExtension (name (file d))) docs ->
   score (scoreQuality l docs a)
     = Z.max 0 (Z.min 100 (scoreBeforeFormat l docs a + 6))) /\
  (~ Forall (fun d => hasRecognizedExtension (name (file d))) docs ->
   score (scoreQuality l docs a)
     = Z.max 0 (Z.min 100 (scoreBeforeFormat l docs a))) /\
  score (scoreQuality l [] a) = Z.max 0 (Z.min 100 (scoreBeforeFormat l [] a + 6)).
Proof.
  rewrite !score_scoreQuality. unfold scoreBeforeClamp, fileFormatSanity.
  rewrite <- pdfOrImg_Forall.
  split; [| split; [| split; [reflexivity | split; [| split; [| reflexivity]]]]];
    destruct (pdfOrImg docs); try split; intros H; try done; try lia;
    try (f_equal; f_equal; lia).
Qed.

(** The same documents and answers, with every name recognised and with one
    that is not: 22 + 8 + 6 = 36 against 22 + 8 = 30. *)
Lemma C7_format_points_witness :
  score (scoreQuality fullLineage [doc_casamento] emptyApplicant) = 36 /\
  score (scoreQuality fullLineage [doc_casamento; doc_unknown_txt] emptyApplicant) = 30.
Proof.
  split.
  - destruct (C7_format_points fullLineage [doc_casamento] emptyApplicant)
      as (_ & _ & _ & H & _).
    rewrite H; [vm_compute; reflexivity |].
    apply pdfOrImg_Forall. vm_compute; reflexivity.
  - destruct (C7_format_points fullLineage [doc_casamento; doc_unknown_txt] emptyApplicant)
      as (_ & _ & _ & _ & H & _).
    rewrite H; [vm_compute; reflexivity |].
    rewrite <- pdfOrImg_Forall. vm_compute; discriminate.
Defined.

(** The check on some names. *)
Lemma format_check_examples :
  map (fun n => isPDF (lit n) || isImage (lit n))
      ["scan.PDF"; "foto.JpEg"; "a.jpg"; "a.webp"; "a.GIF"; "a.png";
       "a.pdf.txt"; "a.jpgx"; "pdf"; "a.docx"; ""]
  = [true; true; true; true; true; true; false; false; false; false; false].
Proof. vm_compute; reflexivity. Qed.

(* ===================================================================== *)
(** ** What the result depends on *)
(* ===================================================================== *)

Lemma typesOf_Permutation (docs docs' : list UploadedDoc) :
  docs ≡ₚ docs' -> typesOf docs = typesOf docs'.
Proof.
  intros Hp. unfold typesOf. apply list_to_set_perm_L. by apply Permutation_map.
Qed.

Lemma pdfOrImg_Permutation (docs docs' : list UploadedDoc) :
  docs ≡ₚ docs' -> pdfOrImg docs = pdfOrImg docs'.
Proof.
  intros Hp. apply eq_true_iff_eq. rewrite !pdfOrImg_Forall. by rewrite Hp.
Qed.

Lemma typesOf_duplicated (docs docs' : list UploadedDoc) :
  duplicated docs docs' -> typesOf docs = typesOf docs'.
Proof.
  intros (l1 & l2 & d & d' & -> & -> & Hin & _ & Ht).
  assert (Hd : inferredType d' ∈ typesOf (l1 ++ l2)).
  { unfold typesOf. rewrite elem_of_list_to_set, list_elem_of_In, in_map_iff.
    exists d. split; [done | by apply list_elem_of_In]. }
  rewrite typesOf_app in Hd. rewrite !typesOf_app, typesOf_cons.
  apply elem_of_union in Hd.
  apply set_eq. intros t. rewrite !elem_of_union, elem_of_singleton.
  split; [tauto |]. intros [H | [-> | H]]; tauto.
Qed.

Lemma pdfOrImg_duplicated (docs docs' : list UploadedDoc) :
  duplicated docs docs' -> pdfOrImg docs = pdfOrImg docs'.
Proof.
  intros (l1 & l2 & d & d' & -> & -> & Hin & Hn & _).
  apply eq_true_iff_eq. rewrite !pdfOrImg_Forall, !Forall_app, Forall_cons.
  split; [| tauto].
  intros [H1 H2]. repeat split; [done | | done].
  rewrite Hn.
  assert (Hall : Forall (fun d0 => hasRecognizedExtension (name (file d0))) (l1 ++ l2))
    by (by apply Forall_app).
  rewrite Forall_forall in Hall. by apply Hall.
Qed.

(** C8.  Reordering the documents, or putting in a copy of a document that is
    already there (same file name, same inferred type), leaves the whole
    result as it was. *)
Theorem C8_order_and_duplicates
    (l : LineageInfo) (a : Applicant) (docs docs' : list UploadedDoc) :
  docs ≡ₚ docs' \/ duplicated docs docs' ->
  scoreQuality l docs a = scoreQuality l docs' a.
Proof.
  intros [Hp | Hd]; apply scoreQuality_ext.
  - by apply typesOf_Permutation.
  - by apply pdfOrImg_Permutation.
  - by apply typesOf_duplicated.
  - by apply pdfOrImg_duplicated.
Qed.

Lemma C8_order_and_duplicates_witness :
  scoreQuality fullLineage [doc_nascimento; doc_casamento; doc_notes] fullApplicant
    = scoreQuality fullLineage [doc_casamento; doc_nascimento; doc_notes] fullApplicant /\
  scoreQuality fullLineage [doc_nascimento; doc_casamento] fullApplicant
    = scoreQuality fullLineage [doc_nascimento; doc_nascimento_again; doc_casamento]
        fullApplicant.
Proof.
  split.
  - apply (C8_order_and_duplicates fullLineage fullApplicant
             [doc_nascimento; doc_casamento; doc_notes]
             [doc_casamento; doc_nascimento; doc_notes]).
    left. apply perm_swap.
  - apply (C8_order_and_duplicates fullLineage fullApplicant
             [doc_nascimento; doc_casamento]
             [doc_nascimento; doc_nascimento_again; doc_casamento]).
    right. exists [doc_nascimento], [doc_casamento], doc_nascimento, doc_nascimento_again.
    split; [reflexivity |]. split; [reflexivity |].
    split; [apply list_elem_of_here |].
    split; vm_compute; reflexivity.
Defined.

Lemma typesOf_sameNameAndType (docs docs' : list UploadedDoc) :
  Forall2 sameNameAndType docs docs' -> typesOf docs' = typesOf docs.
Proof.
  induction 1 as [| d d' docs docs' [_ Ht] _ IH]; [done |].
  by rewrite !typesOf_cons, Ht, IH.
Qed.

Lemma pdfOrImg_sameNameAndType (docs docs' : list UploadedDoc) :
  Forall2 sameNameAndType docs docs' -> pdfOrImg docs' = pdfOrImg docs.
Proof.
  unfold pdfOrImg, every.
  induction 1 as [| d d' docs docs' [Hn _] _ IH]; [done |].
  simpl. by rewrite Hn, IH.
Qed.

(** C10.  The applicant's phone, the ancestor's birth place, and the
    identifiers and sizes of the documents are not read: changing them changes
    nothing in the result. *)
Theorem C10_unread_fields
    (l : LineageInfo) (a : Applicant) (docs docs' : list UploadedDoc)
    (ph place : option jsstring) :
  Forall2 sameNameAndType docs docs' ->
  scoreQuality (withBirthPlace l place) docs' (withPhone a ph) = scoreQuality l docs a.
Proof.
  intros H.
  transitivity (scoreQuality l docs' a); [reflexivity |].
  apply scoreQuality_ext.
  - by apply typesOf_sameNameAndType.
  - by apply pdfOrImg_sameNameAndType.
Qed.

Lemma C10_unread_fields_witness :
  scoreQuality (withBirthPlace fullLineage (Some (lit "Napoli")))
     [doc_nascimento_resized; doc_casamento]
     (withPhone fullApplicant (Some (lit "+55 11 99999-0000")))
  = scoreQuality fullLineage [doc_nascimento; doc_casamento] fullApplicant.
Proof.
  apply (C10_unread_fields fullLineage fullApplicant
           [doc_nascimento; doc_casamento] [doc_nascimento_resized; doc_casamento]).
  constructor; [split; vm_compute; reflexivity |].
  constructor; [split; reflexivity |].
  constructor.
Defined.

(* ===================================================================== *)
(** ** More about the classifier *)
(* ===================================================================== *)

Lemma startsWith_spec (s p : jsstring) :
  startsWith s p = true <-> exists post, s = p ++ post.
Proof.
  revert s. induction p as [| c p IH]; intros s.
  - destruct s; simpl; (split; [intros _; by eexists | done]).
  - destruct s as [| x s]; simpl.
    + split; [discriminate | intros (post & H); discriminate].
    + rewrite andb_true_iff, N.eqb_eq, IH. split.
      * intros (-> & post & ->). by exists post.
      * intros (post & H). injection H as -> ->. eauto.
Qed.

(** [includes] finds [sub] exactly when [s] is some text, [sub], some text. *)
Lemma includes_spec (s sub : jsstring) :
  includes s sub = true <-> exists pre post, s = pre ++ sub ++ post.
Proof.
  induction s as [| x s IH];
    [change (includes [] sub) with (startsWith [] sub || false)
    | change (includes (x :: s) sub) with (startsWith (x :: s) sub || includes s sub)];
    rewrite orb_true_iff, startsWith_spec.
  - split.
    + intros [(post & H) | H]; [| discriminate]. by exists [], post.
    + intros (pre & post & H). left. destruct pre; [| discriminate]. eauto.
  - rewrite IH. split.
    + intros [(post & H) | (pre & post & ->)].
      * by exists [], post.
      * by exists (x :: pre), post.
    + intros (pre & post & H). destruct pre as [| y pre]; simpl in H.
      * left. eauto.
      * injection H as -> ->. right. eauto.
Qed.

Lemma includes_toLowerCase_variant (pre w post kw : jsstring) :
  toLowerCase w = kw -> includes (toLowerCase (pre ++ w ++ post)) kw = true.
Proof.
  intros <-. apply includes_spec. unfold toLowerCase. rewrite !map_app. eauto.
Qed.

(** Cases on the tests of [guessDocType], from the first to the last. *)
Ltac classifier_cases :=
  repeat match goal with
         | |- context [if ?b then _ else _] => destruct b eqn:?
         end.

(** The last branch of [guessDocType] is reached exactly when none of the
    fifteen keywords is found, whatever the lower-casing function. *)
Lemma guessDocTypeWith_unknown_iff (lower : jsstring -> jsstring) (n : jsstring) :
  guessDocTypeWith lower n = unknown <->
  Forall (fun kw => includes (lower n) kw = false) allKeywords.
Proof.
  unfold guessDocTypeWith. cbv zeta.
  cbv [allKeywords allDocTypes triggers map concat app]. split.
  - intros H.
    repeat match type of H with
           | context [includes ?a ?b] =>
               destruct (includes a b) eqn:?; simpl in H; try discriminate
           end; repeat constructor; assumption.
  - intros H. rewrite !Forall_cons in H.
    repeat match type of H with
           | _ /\ _ => let E := fresh "E" in destruct H as [E H]; rewrite E; clear E
           end.
    by destruct (includes _ _).
Qed.

(** X1.  A file name is typed ["unknown"] exactly when, lower-cased, it
    contains none of the fifteen keywords; "negativa" is not among them. *)
Theorem guessDocType_unknown_iff (n : jsstring) :
  guessDocType n = unknown <->
  Forall (fun kw => includes (toLowerCase n) kw = false) allKeywords.
Proof. apply guessDocTypeWith_unknown_iff. Qed.

(** X2.  Whatever type but ["unknown"] a file name gets, one of the keywords
    of that type occurs in the lower-cased name. *)
Theorem guessDocType_sound (n : jsstring) (t : InferredType) :
  guessDocType n = t -> t <> unknown ->
  Exists (fun kw => includes (toLowerCase n) kw = true) (triggers t).
Proof.
  unfold guessDocType, guessDocTypeWith. cbv zeta.
  classifier_cases; intros <- Hne; try congruence; cbn [triggers];
    repeat match goal with
           | H : _ || _ = true |- _ => apply orb_true_iff in H; destruct H
           | H : _ && _ = true |- _ => apply andb_true_iff in H; destruct H
           end;
    solve [ repeat first [ apply Exists_cons_hd; assumption | apply Exists_cons_tl ]
          | congruence ].
Qed.

Lemma guessDocType_sound_witness :
  Exists (fun kw => includes (toLowerCase (lit "RG_frente.png")) kw = true)
    (triggers rg_cnh).
Proof.
  apply (guessDocType_sound (lit "RG_frente.png") rg_cnh).
  - vm_compute; reflexivity.
  - discriminate.
Defined.

(** X3.  "nascimento" wins over everything: a name with it, in whatever
    letter case and whatever else it contains, is a birth certificate. *)
Theorem guessDocType_nascimento_first (pre w post : jsstring) :
  toLowerCase w = lit "nascimento" ->
  guessDocType (pre ++ w ++ post) = certidao_nascimento.
Proof.
  intros H. unfold guessDocType, guessDocTypeWith. cbv zeta.
  by rewrite (includes_toLowerCase_variant pre w post _ H).
Qed.

Lemma guessDocType_nascimento_first_witness :
  guessDocType (lit "naturalizacao_casamento_" ++ lit "NASCIMENTO" ++ lit "_obito.pdf")
  = certidao_nascimento.
Proof.
  apply (guessDocType_nascimento_first (lit "naturalizacao_casamento_")
           (lit "NASCIMENTO") (lit "_obito.pdf")).
  vm_compute; reflexivity.
Defined.

(** X4.  A name containing any of the fifteen keywords, in whatever letter
    case, is never typed ["unknown"]. *)
Theorem guessDocType_keyword_known (pre w post kw : jsstring) :
  kw ∈ allKeywords -> toLowerCase w = kw ->
  guessDocType (pre ++ w ++ post) <> unknown.
Proof.
  intros Hin Hw Hu. apply guessDocTypeWith_unknown_iff in Hu.
  rewrite Forall_forall in Hu. specialize (Hu kw Hin).
  rewrite (includes_toLowerCase_variant pre w post kw Hw) in Hu. discriminate.
Qed.

Lemma guessDocType_keyword_known_witness :
  guessDocType (lit "comprovante_" ++ lit "ENDEREÇO" ++ lit ".pdf") <> unknown.
Proof.
  apply (guessDocType_keyword_known (lit "comprovante_") (lit "ENDEREÇO") (lit ".pdf")
           (lit "endereço")).
  - cbv [allKeywords allDocTypes triggers map concat app]. rewrite !elem_of_cons.
    repeat first [left; reflexivity | right].
  - vm_compute; reflexivity.
Defined.

(* ===================================================================== *)
(** ** More about the extension tests *)
(* ===================================================================== *)

Lemma endsWithIgnoreCase_rev (n ext : jsstring) :
  endsWithIgnoreCase n ext ->
  exists r, rev (map asciiLower n) = rev ext ++ r.
Proof.
  intros (pre & suf & -> & <-). exists (rev (map asciiLower pre)).
  by rewrite map_app, rev_app_distr.
Qed.

Lemma endsWithIgnoreCase_length (n ext : jsstring) :
  endsWithIgnoreCase n ext -> (length ext <= length n)%nat.
Proof.
  intros (pre & suf & -> & <-). rewrite length_app, length_map. lia.
Qed.

Ltac compute_literals :=
  repeat match goal with
         | H : context [lit ?s] |- _ =>
             let e := eval vm_compute in (lit s) in change (lit s) with e in H
         | |- context [lit ?s] =>
             let e := eval vm_compute in (lit s) in change (lit s) with e
         end.

(** X5.  No name passes both tests: a name [isPDF] accepts is not one
    [isImage] accepts. *)
Theorem isPDF_isImage_exclusive (n : jsstring) :
  isPDF n && isImage n = false.
Proof.
  destruct (isPDF n) eqn:Hp; [| done]. destruct (isImage n) eqn:Hi; [| done].
  exfalso. apply isPDF_spec, endsWithIgnoreCase_rev in Hp as (r & Hp).
  apply isImage_spec in Hi.
  destruct Hi as [H | [H | [H | [H | H]]]];
    apply endsWithIgnoreCase_rev in H as (r' & H);
    rewrite Hp in H; compute_literals; simpl in H; discriminate.
Qed.

(** X6.  The tests look at the end of the name only: a name that passes has
    at least four code units, and still passes with any text put before
    it. *)
Theorem recognized_extension_suffix (n : jsstring) :
  isPDF n || isImage n = true ->
  (4 <= length n)%nat /\
  forall pre, isPDF (pre ++ n) || isImage (pre ++ n) = true.
Proof.
  intros H. apply isPDF_or_isImage_spec in H as (ext & Hin & Hends). split.
  - apply endsWithIgnoreCase_length in Hends.
    unfold recognizedExtensions in Hin. rewrite !elem_of_cons, elem_of_nil in Hin.
    destruct Hin as [-> | [-> | [-> | [-> | [-> | [-> | []]]]]]];
      compute_literals; simpl in Hends; lia.
  - intros pre. apply isPDF_or_isImage_spec. exists ext. split; [done |].
    destruct Hends as (p & suf & -> & Hs). exists (pre ++ p), suf.
    by rewrite app_assoc.
Qed.

Lemma recognized_extension_suffix_witness :
  (4 <= length (lit ".PDF"))%nat /\
  isPDF (lit "C:\fakepath\certidao" ++ lit ".PDF")
    || isImage (lit "C:\fakepath\certidao" ++ lit ".PDF") = true.
Proof.
  destruct (recognized_extension_suffix (lit ".PDF")) as [Hlen Hpre].
  - vm_compute; reflexivity.
  - split; [exact Hlen | apply Hpre].
Defined.

(* ===================================================================== *)
(** ** More about the scorer *)
(* ===================================================================== *)

Lemma allFlags_NoDup : NoDup allFlags.
Proof. apply (bool_decide_unpack _). vm_compute. exact I. Qed.

(** The flags, one optional message after the other. *)
Lemma flags_scoreQuality l docs a :
  flags (scoreQuality l docs a) =
    (if has (typesOf docs) certidao_nascimento then [] else [flag_missing_birth])
    ++ (if has (typesOf docs) certidao_casamento then [] else [flag_missing_marriage])
    ++ (if has (typesOf docs) certidao_negativa_naturalizacao
           || has (typesOf docs) certidao_naturalizacao
        then [] else [flag_missing_naturalization_proof])
    ++ (if naturalizedBeforeChildBirth l then [flag_disqualifying_naturalization] else [])
    ++ (if anyFemaleBefore1948 l then [flag_maternal_line] else []).
Proof.
  unfold scoreQuality, keyFlags. cbv zeta. cbn [flags].
  unfold flag_missing_birth, flag_missing_marriage, flag_missing_naturalization_proof,
    flag_disqualifying_naturalization, flag_maternal_line.
  destruct (has (typesOf docs) certidao_nascimento),
    (has (typesOf docs) certidao_casamento),
    (has (typesOf docs) certidao_negativa_naturalizacao),
    (has (typesOf docs) certidao_naturalizacao),
    (naturalizedBeforeChildBirth l), (anyFemaleBefore1948 l);
    cbn [app negb andb orb]; reflexivity.
Qed.

Lemma label_scoreQuality l docs a :
  label (scoreQuality l docs a) =
    if 80 <=? score (scoreQuality l docs a) then label_excellent
    else if 60 <=? score (scoreQuality l docs a) then label_good
    else if 40 <=? score (scoreQuality l docs a) then label_fair
    else label_low.
Proof.
  unfold scoreQuality. cbv zeta. cbn [score label].
  unfold label_excellent, label_good, label_fair, label_low. reflexivity.
Qed.

(** The five messages are five different strings. *)
Lemma allFlags_distinct :
  flag_missing_birth <> flag_missing_marriage /\
  flag_missing_birth <> flag_missing_naturalization_proof /\
  flag_missing_birth <> flag_disqualifying_naturalization /\
  flag_missing_birth <> flag_maternal_line /\
  flag_missing_marriage <> flag_missing_naturalization_proof /\
  flag_missing_marriage <> flag_disqualifying_naturalization /\
  flag_missing_marriage <> flag_maternal_line /\
  flag_missing_naturalization_proof <> flag_disqualifying_naturalization /\
  flag_missing_naturalization_proof <> flag_maternal_line /\
  flag_disqualifying_naturalization <> flag_maternal_line.
Proof. repeat split; intros H; vm_compute in H; discriminate. Qed.

(** Decides whether a message is in a list of messages given one by one; the
    messages are told apart by the facts of [allFlags_distinct]. *)
Ltac flag_membership :=
  rewrite ?elem_of_cons, ?elem_of_nil;
  split;
  (let Hm := fresh "Hm" in
   intros Hm;
   first
     [ reflexivity
     | discriminate
     | solve [ repeat first [ left; match goal with |- ?x = ?x => reflexivity end
                            | right ] ]
     | exfalso; repeat (destruct Hm as [Hm | Hm]; [congruence |]); exact Hm ]).

(** X7.  Each of the five messages is in the flags exactly under its own
    condition. *)
Theorem flags_iff (l : LineageInfo) (docs : list UploadedDoc) (a : Applicant) :
  (flag_missing_birth ∈ flags (scoreQuality l docs a)
     <-> has (typesOf docs) certidao_nascimento = false) /\
  (flag_missing_marriage ∈ flags (scoreQuality l docs a)
     <-> has (typesOf docs) certidao_casamento = false) /\
  (flag_missing_naturalization_proof ∈ flags (scoreQuality l docs a)
     <-> has (typesOf docs) certidao_negativa_naturalizacao
         || has (typesOf docs) certidao_naturalizacao = false) /\
  (flag_disqualifying_naturalization ∈ flags (scoreQuality l docs a)
     <-> naturalizedBeforeChildBirth l = true) /\
  (flag_maternal_line ∈ flags (scoreQuality l docs a)
     <-> anyFemaleBefore1948 l = true).
Proof.
  rewrite flags_scoreQuality.
  destruct allFlags_distinct as (? & ? & ? & ? & ? & ? & ? & ? & ? & ?).
  destruct (has (typesOf docs) certidao_nascimento),
    (has (typesOf docs) certidao_casamento),
    (has (typesOf docs) certidao_negativa_naturalizacao
     || has (typesOf docs) certidao_naturalizacao),
    (naturalizedBeforeChildBirth l), (anyFemaleBefore1948 l);
    cbn [app]; (split; [| split; [| split; [| split]]]); flag_membership.
Qed.

(** X8.  The flags are some of the five messages, in their fixed order and
    each at most once; so there are at most five. *)
Theorem flags_sublist (l : LineageInfo) (docs : list UploadedDoc) (a : Applicant) :
  flags (scoreQuality l docs a) `sublist_of` allFlags /\
  NoDup (flags (scoreQuality l docs a)) /\
  (length (flags (scoreQuality l docs a)) <= 5)%nat.
Proof.
  assert (Hs : flags (scoreQuality l docs a) `sublist_of` allFlags).
  { rewrite flags_scoreQuality. unfold allFlags.
    destruct (has (typesOf docs) certidao_nascimento),
      (has (typesOf docs) certidao_casamento),
      (has (typesOf docs) certidao_negativa_naturalizacao
       || has (typesOf docs) certidao_naturalizacao),
      (naturalizedBeforeChildBirth l), (anyFemaleBefore1948 l);
      cbn [app];
      repeat first
        [ apply sublist_nil
        | match goal with
          | |- ?x :: _ `sublist_of` ?x :: _ => apply sublist_skip
          | |- _ `sublist_of` _ :: _ => apply sublist_cons
          end ]. }
  split; [exact Hs |]. split.
  - eapply sublist_NoDup; [apply allFlags_NoDup | exact Hs].
  - apply sublist_length in Hs. exact Hs.
Qed.

(** X9.  With the naturalization before the descendant's birth the score is
    at most 69, so the label is never the best one. *)
Theorem blocker_caps_score (l : LineageInfo) (docs : list UploadedDoc) (a : Applicant) :
  naturalizedBeforeChildBirth l = true ->
  score (scoreQuality l docs a) <= 69 /\
  label (scoreQuality l docs a) <> label_excellent.
Proof.
  intros Hb.
  assert (Hs : score (scoreQuality l docs a) <= 69).
  { rewrite score_scoreQuality. unfold scoreBeforeClamp, fileFormatSanity.
    rewrite scoreBeforeFormat_sum.
    pose proof (baseInfoCompleteness_bounds a).
    pose proof (lineageEssentials_bounds l).
    pose proof (documentPresenceBoosts_bounds (typesOf docs)).
    assert (riskAdjustments l 0 <= -25).
    { unfold riskAdjustments. rewrite Hb.
      destruct (anyNaturalizationInLine l), (anyFemaleBefore1948 l); lia. }
    destruct (pdfOrImg docs); lia. }
  split; [exact Hs |].
  rewrite label_scoreQuality.
  destruct (Z.leb_spec 80 (score (scoreQuality l docs a))); [lia |].
  repeat match goal with
         | |- (if ?b then _ else _) <> _ => destruct b
         end; intros Heq; vm_compute in Heq; discriminate.
Qed.

Lemma blocker_caps_score_witness :
  score (scoreQuality (st_lineage (handle (mkState fullApplicant fullLineage allDocs true)
                                     (SetNaturalizedBeforeChildBirth true)))
           allDocs fullApplicant) <= 69.
Proof.
  apply (blocker_caps_score
           (st_lineage (handle (mkState fullApplicant fullLineage allDocs true)
                          (SetNaturalizedBeforeChildBirth true)))
           allDocs fullApplicant).
  reflexivity.
Defined.

(** The documents reach the result through five single types, the pair of
    naturalization types taken together, and the format check. *)
Lemma scoreQuality_ext_scored l a docs docs' :
  has (typesOf docs) certidao_nascimento = has (typesOf docs') certidao_nascimento ->
  has (typesOf docs) certidao_casamento = has (typesOf docs') certidao_casamento ->
  has (typesOf docs) certidao_obito = has (typesOf docs') certidao_obito ->
  has (typesOf docs) certidao_negativa_naturalizacao
    || has (typesOf docs) certidao_naturalizacao
  = has (typesOf docs') certidao_negativa_naturalizacao
    || has (typesOf docs') certidao_naturalizacao ->
  has (typesOf docs) apostila_haya = has (typesOf docs') apostila_haya ->
  has (typesOf docs) traducao_juramentada = has (typesOf docs') traducao_juramentada ->
  pdfOrImg docs = pdfOrImg docs' ->
  scoreQuality l docs a = scoreQuality l docs' a.
Proof.
  intros H1 H2 H3 H4 H5 H6 H7.
  unfold scoreQuality, scoreBeforeClamp, scoreBeforeFormat, fileFormatSanity,
    documentPresenceBoosts, keyFlags.
  rewrite <- !negb_orb. by rewrite H1, H2, H3, H4, H5, H6, H7.
Qed.

(** X10.  A passport, an identity card, a proof of address or a file of
    unknown type, under a name with a recognised extension, changes nothing
    in the result. *)
Theorem unscored_document_ignored
    (l : LineageInfo) (a : Applicant) (docs : list UploadedDoc) (d : UploadedDoc) :
  inferredType d ∈ unscoredTypes ->
  isPDF (name (file d)) || isImage (name (file d)) = true ->
  scoreQuality l (docs ++ [d]) a = scoreQuality l docs a.
Proof.
  intros Ht Hf. unfold unscoredTypes in Ht. rewrite !elem_of_cons, elem_of_nil in Ht.
  apply scoreQuality_ext_scored; rewrite ?has_typesOf_snoc;
    try (destruct Ht as [-> | [-> | [-> | [-> | []]]]]; simpl;
         by rewrite ?orb_false_r).
  rewrite pdfOrImg_app. unfold pdfOrImg at 2, every. simpl.
  by rewrite Hf, andb_true_r.
Qed.

Lemma unscored_document_ignored_witness :
  scoreQuality fullLineage ([doc_nascimento] ++ [picked "u1u1u" "passaporte.jpg" 4096])
    fullApplicant
  = scoreQuality fullLineage [doc_nascimento] fullApplicant.
Proof.
  apply (unscored_document_ignored fullLineage fullApplicant [doc_nascimento]
           (picked "u1u1u" "passaporte.jpg" 4096)).
  - assert (E : inferredType (picked "u1u1u" "passaporte.jpg" 4096) = passaporte)
      by (vm_compute; reflexivity).
    rewrite E. apply list_elem_of_here.
  - vm_compute; reflexivity.
Defined.

Lemma has_typesOf_false (docs : list UploadedDoc) (t : InferredType) :
  Forall (fun d => inferredType d <> t) docs -> has (typesOf docs) t = false.
Proof.
  intros Hall. destruct (has (typesOf docs) t) eqn:E; [| done].
  apply has_typesOf in E as (d & Hd & Ht).
  rewrite Forall_forall in Hall. by destruct (Hall d Hd).
Qed.

(** X11.  Without a document of a scored type (so also without any document)
    the score is at most 44: the label is one of the two lowest. *)
Theorem unscored_documents_cap (l : LineageInfo) (docs : list UploadedDoc) (a : Applicant) :
  Forall (fun d => inferredType d ∈ unscoredTypes) docs ->
  score (scoreQuality l docs a) <= 44 /\
  (label (scoreQuality l docs a) = label_fair \/ label (scoreQuality l docs a) = label_low).
Proof.
  intros Hall.
  assert (Hno : forall t, t ∉ unscoredTypes -> has (typesOf docs) t = false).
  { intros t Ht. apply has_typesOf_false. eapply Forall_impl; [exact Hall |].
    simpl. intros d Hd Heq. apply Ht. by rewrite <- Heq. }
  assert (Hs : score (scoreQuality l docs a) <= 44).
  { rewrite score_scoreQuality. unfold scoreBeforeClamp, fileFormatSanity.
    rewrite scoreBeforeFormat_sum.
    pose proof (baseInfoCompleteness_bounds a).
    pose proof (lineageEssentials_bounds l).
    pose proof (riskAdjustments_bounds l).
    assert (documentPresenceBoosts (typesOf docs) 0 = 0) as ->.
    { unfold documentPresenceBoosts, unscoredTypes in *.
      rewrite !Hno; [done | ..]; rewrite !elem_of_cons, elem_of_nil;
        intuition discriminate. }
    destruct (pdfOrImg docs); lia. }
  split; [exact Hs |].
  rewrite label_scoreQuality.
  destruct (Z.leb_spec 80 (score (scoreQuality l docs a))); [lia |].
  destruct (Z.leb_spec 60 (score (scoreQuality l docs a))); [lia |].
  destruct (40 <=? score (scoreQuality l docs a)); [by left | by right].
Qed.

Lemma unscored_documents_cap_witness :
  score (scoreQuality fullLineage [doc_notes] fullApplicant) <= 44.
Proof.
  apply (unscored_documents_cap fullLineage [doc_notes] fullApplicant).
  constructor; [| constructor].
  assert (E : inferredType doc_notes = unknown) by (vm_compute; reflexivity).
  rewrite E. unfold unscoredTypes. do 3 apply list_elem_of_further. apply list_elem_of_here.
Defined.

Lemma pdfOrImg_snoc (docs : list UploadedDoc) (d : UploadedDoc) :
  pdfOrImg (docs ++ [d])
  = pdfOrImg docs && (isPDF (name (file d)) || isImage (name (file d))).
Proof.
  rewrite pdfOrImg_app. f_equal. unfold pdfOrImg, every. simpl. apply andb_true_r.
Qed.

(** X12.  One more document never takes more than 6 from the sum or from the
    score, and takes nothing when its name has a recognised extension. *)
Theorem document_added_bounds
    (l : LineageInfo) (a : Applicant) (docs : list UploadedDoc) (d : UploadedDoc) :
  scoreBeforeClamp l docs a - 6 <= scoreBeforeClamp l (docs ++ [d]) a /\
  score (scoreQuality l docs a) - 6 <= score (scoreQuality l (docs ++ [d]) a) /\
  (isPDF (name (file d)) || isImage (name (file d)) = true ->
   score (scoreQuality l docs a) <= score (scoreQuality l (docs ++ [d]) a)).
Proof.
  rewrite !score_scoreQuality. unfold scoreBeforeClamp, fileFormatSanity.
  rewrite !scoreBeforeFormat_sum, !pdfOrImg_snoc.
  assert (Hd : documentPresenceBoosts (typesOf docs) 0
               <= documentPresenceBoosts (typesOf (docs ++ [d])) 0).
  { unfold documentPresenceBoosts. rewrite !has_typesOf_snoc.
    destruct (inferredType d); simpl; rewrite ?orb_false_r, ?orb_true_r;
      destruct (has (typesOf docs) certidao_nascimento),
        (has (typesOf docs) certidao_casamento),
        (has (typesOf docs) certidao_obito),
        (has (typesOf docs) certidao_negativa_naturalizacao),
        (has (typesOf docs) certidao_naturalizacao),
        (has (typesOf docs) apostila_haya),
        (has (typesOf docs) traducao_juramentada); simpl; lia. }
  destruct (pdfOrImg docs), (isPDF (name (file d)) || isImage (name (file d)));
    simpl; (split; [lia | split; [lia | intros; first [discriminate | lia]]]).
Qed.

Lemma document_added_bounds_witness :
  score (scoreQuality fullLineage [doc_casamento] fullApplicant)
  <= score (scoreQuality fullLineage ([doc_casamento] ++ [doc_nascimento]) fullApplicant).
Proof.
  destruct (document_added_bounds fullLineage fullApplicant [doc_casamento] doc_nascimento)
    as (_ & _ & H).
  apply H. vm_compute; reflexivity.
Defined.

(** X13.  The box "naturalization in some generation" takes 8 from the sum
    and shows in no flag. *)
Theorem naturalization_in_line_unflagged (st : AppState) :
  let on := handle st (SetAnyNaturalizationInLine true) in
  let off := handle st (SetAnyNaturalizationInLine false) in
  flags (evaluation on) = flags (evaluation off) /\
  scoreBeforeClamp (st_lineage on) (st_docs on) (st_applicant on)
  = scoreBeforeClamp (st_lineage off) (st_docs off) (st_applicant off) - 8.
Proof.
  split; [reflexivity |].
  unfold scoreBeforeClamp, fileFormatSanity. rewrite !scoreBeforeFormat_sum. simpl.
  unfold riskAdjustments, lineageEssentials. cbn -[Z.add Z.sub truthy truthy_opt].
  destruct (naturalizedBeforeChildBirth (st_lineage st)),
    (anyFemaleBefore1948 (st_lineage st)); lia.
Qed.

(** X14.  The scorer does not tell the two naturalization types apart:
    exchanging them on every document leaves the result as it was. *)
Theorem naturalization_types_interchangeable
    (l : LineageInfo) (a : Applicant) (docs : list UploadedDoc) :
  scoreQuality l (map swapNaturalization docs) a = scoreQuality l docs a.
Proof.
  assert (Hsame : forall t, t <> certidao_naturalizacao ->
                            t <> certidao_negativa_naturalizacao ->
            has (typesOf (map swapNaturalization docs)) t = has (typesOf docs) t).
  { intros t H1 H2. apply eq_true_iff_eq. rewrite has_typesOf_fmap, has_typesOf.
    split; intros (d & Hin & Ht); exists d; (split; [done |]);
      unfold swapNaturalization in *; simpl in *;
      destruct (inferredType d); congruence. }
  apply scoreQuality_ext_scored; try (apply Hsame; discriminate).
  - apply eq_true_iff_eq.
    rewrite !orb_true_iff, !has_typesOf_fmap, !has_typesOf.
    unfold swapNaturalization; simpl.
    split; (intros [(d & Hin & Ht) | (d & Hin & Ht)];
            [right | left]; exists d; (split; [done |]);
            destruct (inferredType d); congruence).
  - clear Hsame. unfold pdfOrImg, every. induction docs as [| d docs IH]; [done |].
    cbn [map forallb]. rewrite IH. reflexivity.
Qed.

(* ===================================================================== *)
(** ** The document list of the component *)
(* ===================================================================== *)

Lemma removeDoc_fresh (ident : jsstring) (docs : list UploadedDoc) :
  Forall (fun d => id d <> ident) docs -> removeDoc ident docs = docs.
Proof.
  unfold removeDoc. induction 1 as [| d docs Hd _ IH]; [done |].
  rewrite filter_cons_True by done. by rewrite IH.
Qed.

Lemma removeDoc_no_ident (ident : jsstring) (docs : list UploadedDoc) :
  Forall (fun d => id d <> ident) (removeDoc ident docs).
Proof.
  apply Forall_forall. intros d Hd. unfold removeDoc in Hd.
  by apply list_elem_of_filter in Hd as [Hne _].
Qed.

(** Every sub-list free of the identifier is a sub-list of what [removeDoc]
    keeps. *)
Lemma removeDoc_greatest (ident : jsstring) (docs kept : list UploadedDoc) :
  kept `sublist_of` docs -> Forall (fun d => id d <> ident) kept ->
  kept `sublist_of` removeDoc ident docs.
Proof.
  unfold removeDoc. induction 1 as [| d l1 l2 _ IH | d l1 l2 _ IH]; intros Hfree.
  - constructor.
  - apply Forall_cons in Hfree as [Hd Hfree].
    rewrite filter_cons_True by done. apply sublist_skip. by apply IH.
  - rewrite filter_cons. destruct (decide (id d <> ident)).
    + apply sublist_cons. by apply IH.
    + by apply IH.
Qed.

(** X15.  [removeDoc] takes away every document that carries the identifier
    and nothing else, keeping the order and the copies: its result is the
    greatest sub-list of the documents free of the identifier, and the only
    one.  It leaves the list as it is exactly when no document carries the
    identifier, and shortens it otherwise. *)
Theorem removeDoc_spec (ident : jsstring) (docs : list UploadedDoc) :
  Forall (fun d => id d <> ident) (removeDoc ident docs) /\
  removeDoc ident docs `sublist_of` docs /\
  (forall d, d ∈ docs -> id d <> ident -> d ∈ removeDoc ident docs) /\
  (removeDoc ident docs = docs <-> Forall (fun d => id d <> ident) docs) /\
  (Exists (fun d => id d = ident) docs ->
   (length (removeDoc ident docs) < length docs)%nat) /\
  (forall kept, kept `sublist_of` docs -> Forall (fun d => id d <> ident) kept ->
                kept `sublist_of` removeDoc ident docs) /\
  (forall res, res `sublist_of` docs -> Forall (fun d => id d <> ident) res ->
               (forall kept, kept `sublist_of` docs ->
                             Forall (fun d => id d <> ident) kept ->
                             kept `sublist_of` res) ->
               res = removeDoc ident docs) /\
  (forall docs', removeDoc ident (docs ++ docs')
                 = removeDoc ident docs ++ removeDoc ident docs').
Proof.
  split; [apply removeDoc_no_ident |].
  split; [apply sublist_filter |].
  split; [intros d Hin Hne; by apply list_elem_of_filter |].
  split.
  { split; [| apply removeDoc_fresh].
    intros <-. apply removeDoc_no_ident. }
  split.
  { intros Hex. apply Exists_exists in Hex as (d & Hin & Hid).
    unfold removeDoc. apply (length_filter_lt _ _ d); [done |]. by intros Hne. }
  split; [intros kept; apply removeDoc_greatest |].
  split.
  - intros res Hsub Hfree Hmax. apply (anti_symm sublist).
    + by apply removeDoc_greatest.
    + apply Hmax; [apply sublist_filter | apply removeDoc_no_ident].
  - intros docs'. apply filter_app.
Qed.

Lemma removeDoc_spec_witness :
  (length (removeDoc (lit "p0q1z") [doc_nascimento; doc_casamento])
   < length [doc_nascimento; doc_casamento])%nat /\
  [doc_nascimento; doc_nascimento]
    `sublist_of` removeDoc (lit "p0q1z") [doc_nascimento; doc_nascimento; doc_casamento].
Proof.
  split.
  - destruct (removeDoc_spec (lit "p0q1z") [doc_nascimento; doc_casamento])
      as (_ & _ & _ & _ & H & _).
    apply H. apply Exists_cons_tl, Exists_cons_hd. vm_compute; reflexivity.
  - destruct (removeDoc_spec (lit "p0q1z") [doc_nascimento; doc_nascimento; doc_casamento])
      as (_ & _ & _ & _ & _ & H & _).
    apply H.
    + apply sublist_skip, sublist_skip, sublist_cons, sublist_nil.
    + constructor; [| constructor; [| constructor]];
        intros Heq; vm_compute in Heq; discriminate.
Defined.

(** X16.  A file picked and then removed by the identifier it was given
    leaves the list as it was, provided no document already in the list
    carries that identifier. *)
Theorem pick_then_remove (rnd : nat -> jsstring) (f : File) (prev : list UploadedDoc) :
  Forall (fun d => id d <> rnd 0%nat) prev ->
  removeDoc (rnd 0%nat) (onFilePick rnd (Some [f]) prev) = prev.
Proof.
  intros Hfresh. unfold onFilePick, removeDoc. simpl imap.
  rewrite filter_app, filter_cons_False, filter_nil, app_nil_r.
  - by apply removeDoc_fresh.
  - simpl. by intros Hne.
Qed.

Lemma pick_then_remove_witness :
  removeDoc (lit "k3f9a")
    (onFilePick (fun _ => lit "k3f9a")
       (Some [{| name := lit "certidao_nascimento.pdf"; size := 52341 |}])
       [doc_casamento])
  = [doc_casamento].
Proof.
  apply (pick_then_remove (fun _ => lit "k3f9a")
           {| name := lit "certidao_nascimento.pdf"; size := 52341 |} [doc_casamento]).
  constructor; [| constructor]. intros H. vm_compute in H. discriminate.
Defined.

(** The identifiers are drawn at random and never compared: when the new
    identifier is already in the list, removing the new document removes the
    old one as well. *)
Lemma pick_then_remove_collision :
  removeDoc (lit "p0q1z")
    (onFilePick (fun _ => lit "p0q1z")
       (Some [{| name := lit "certidao_nascimento.pdf"; size := 52341 |}])
       [doc_casamento])
  = [].
Proof. vm_compute; reflexivity. Qed.

Lemma imap_newDoc_classified (rnd : nat -> jsstring) (fs : list File) :
  classifiedByName (imap (fun i f => newDoc (rnd i) f) fs).
Proof.
  unfold classifiedByName. revert rnd.
  induction fs as [| f fs IH]; intros rnd; [constructor |].
  rewrite imap_cons. constructor; [reflexivity |]. apply (IH (rnd ∘ S)).
Qed.

Lemma onFilePick_classified rnd files prev :
  classifiedByName prev -> classifiedByName (onFilePick rnd files prev).
Proof.
  intros H. destruct files as [fs |]; simpl; [| done].
  apply Forall_app. split; [done | apply imap_newDoc_classified].
Qed.

Lemma removeDoc_classified ident prev :
  classifiedByName prev -> classifiedByName (removeDoc ident prev).
Proof.
  unfold classifiedByName, removeDoc. intros H.
  apply Forall_forall. intros d Hd. apply list_elem_of_filter in Hd as [_ Hd].
  rewrite Forall_forall in H. by apply H.
Qed.

Lemma handle_classified st e :
  classifiedByName (st_docs st) -> classifiedByName (st_docs (handle st e)).
Proof.
  intros H. destruct e; simpl; try done.
  - by apply onFilePick_classified.
  - by apply removeDoc_classified.
Qed.

Lemma run_classified st events :
  classifiedByName (st_docs st) -> classifiedByName (st_docs (run st events)).
Proof.
  unfold run. revert st. induction events as [| e events IH]; intros st H; [done |].
  simpl. apply IH. by apply handle_classified.
Qed.

(** X17.  Whatever the user does from the start of the page, every stored
    document has the type [guessDocType] gives its file name; so none has the
    type ["certidao_negativa_naturalizacao"], and the flag for the missing
    proof of naturalization depends on ["certidao_naturalizacao"] alone. *)
Theorem stored_documents_classified (events : list Event) :
  classifiedByName (st_docs (run initialState events)) /\
  has (typesOf (st_docs (run initialState events))) certidao_negativa_naturalizacao = false /\
  (flag_missing_naturalization_proof ∈ flags (evaluation (run initialState events))
   <-> has (typesOf (st_docs (run initialState events))) certidao_naturalizacao = false).
Proof.
  assert (Hc : classifiedByName (st_docs (run initialState events)))
    by (apply run_classified; constructor).
  assert (Hn : has (typesOf (st_docs (run initialState events)))
                 certidao_negativa_naturalizacao = false).
  { apply has_typesOf_false. eapply Forall_impl; [exact Hc |].
    simpl. intros d ->. apply guessDocTypeWith_never_negativa. }
  split; [exact Hc |]. split; [exact Hn |].
  unfold evaluation. rewrite flags_scoreQuality, Hn.
  destruct allFlags_distinct as (? & ? & ? & ? & ? & ? & ? & ? & ? & ?).
  destruct (has (typesOf (st_docs (run initialState events))) certidao_nascimento),
    (has (typesOf (st_docs (run initialState events))) certidao_casamento),
    (has (typesOf (st_docs (run initialState events))) certidao_naturalizacao),
    (naturalizedBeforeChildBirth (st_lineage (run initialState events))),
    (anyFemaleBefore1948 (st_lineage (run initialState events)));
    cbn [app orb]; flag_membership.
Qed.

Lemma sameNameAndType_refl (docs : list UploadedDoc) :
  Forall2 sameNameAndType docs docs.
Proof. induction docs; constructor; [by split | done]. Qed.

Lemma imap_newDoc_sameNameAndType (rnd rnd' : nat -> jsstring) (fs : list File) :
  Forall2 sameNameAndType
    (imap (fun i f => newDoc (rnd i) f) fs) (imap (fun i f => newDoc (rnd' i) f) fs).
Proof.
  revert rnd rnd'. induction fs as [| f fs IH]; intros rnd rnd'; [constructor |].
  rewrite !imap_cons. constructor; [by split |]. apply (IH (rnd ∘ S) (rnd' ∘ S)).
Qed.

(** X18.  Files picked in two rounds are evaluated as the same files picked
    in one round, whatever identifiers are drawn. *)
Theorem picks_in_rounds
    (l : LineageInfo) (a : Applicant) (prev : list UploadedDoc)
    (rnd1 rnd2 rnd : nat -> jsstring) (fs1 fs2 : list File) :
  scoreQuality l (onFilePick rnd2 (Some fs2) (onFilePick rnd1 (Some fs1) prev)) a
  = scoreQuality l (onFilePick rnd (Some (fs1 ++ fs2)) prev) a.
Proof.
  assert (H : Forall2 sameNameAndType
                (onFilePick rnd (Some (fs1 ++ fs2)) prev)
                (onFilePick rnd2 (Some fs2) (onFilePick rnd1 (Some fs1) prev))).
  { unfold onFilePick. rewrite imap_app, <- app_assoc.
    apply Forall2_app; [apply sameNameAndType_refl |].
    apply Forall2_app; apply imap_newDoc_sameNameAndType. }
  apply scoreQuality_ext.
  - by apply typesOf_sameNameAndType.
  - by apply pdfOrImg_sameNameAndType.
Qed.

(* ===================================================================== *)
(** ** What the page shows *)
(* ===================================================================== *)

(** X19.  The colour of the bar goes with the label: green with the best
    label, emerald with the second, amber with the third, red with the
    lowest. *)
Theorem progressColor_label (l : LineageInfo) (docs : list UploadedDoc) (a : Applicant) :
  (progressColor (score (scoreQuality l docs a)) = lit "bg-green-500"
     <-> label (scoreQuality l docs a) = label_excellent) /\
  (progressColor (score (scoreQuality l docs a)) = lit "bg-emerald-500"
     <-> label (scoreQuality l docs a) = label_good) /\
  (progressColor (score (scoreQuality l docs a)) = lit "bg-amber-500"
     <-> label (scoreQuality l docs a) = label_fair) /\
  (progressColor (score (scoreQuality l docs a)) = lit "bg-red-500"
     <-> label (scoreQuality l docs a) = label_low).
Proof.
  rewrite label_scoreQuality. unfold progressColor.
  generalize (score (scoreQuality l docs a)). intros s.
  destruct (80 <=? s); [| destruct (60 <=? s); [| destruct (40 <=? s)]];
    (split; [| split; [| split]]);
    (split; intros Heq;
     first [ exfalso; vm_compute in Heq; discriminate
           | reflexivity ]).
Qed.

(** X20.  The card at the top of the page shows every flag, but when all
    five are raised: then it shows the first four and "1 more".  *)
Theorem heroItems_flags (l : LineageInfo) (docs : list UploadedDoc) (a : Applicant) :
  heroItems (flags (scoreQuality l docs a)) =
    if bool_decide (flags (scoreQuality l docs a) = allFlags)
    then map FlagItem [flag_missing_birth; flag_missing_marriage;
                       flag_missing_naturalization_proof;
                       flag_disqualifying_naturalization] ++ [MoreItem 1]
    else map FlagItem (flags (scoreQuality l docs a)).
Proof.
  rewrite flags_scoreQuality. unfold allFlags.
  destruct allFlags_distinct as (? & ? & ? & ? & ? & ? & ? & ? & ? & ?).
  destruct (has (typesOf docs) certidao_nascimento),
    (has (typesOf docs) certidao_casamento),
    (has (typesOf docs) certidao_negativa_naturalizacao
     || has (typesOf docs) certidao_naturalizacao),
    (naturalizedBeforeChildBirth l), (anyFemaleBefore1948 l);
    cbn [app];
    first [ rewrite bool_decide_eq_true_2 by reflexivity; reflexivity
          | rewrite bool_decide_eq_false_2 by congruence; reflexivity ].
Qed.

(** X21.  The exported summary holds all the evaluation was made of: two
    summaries with the same applicant, lineage and document entries have the
    same score, label and flags, although the identifiers are not exported. *)
Theorem downloadSummary_self_contained (st st' : AppState) (now now' : jsstring) :
  p_applicant (downloadSummary st now) = p_applicant (downloadSummary st' now') ->
  p_lineage (downloadSummary st now) = p_lineage (downloadSummary st' now') ->
  p_docs (downloadSummary st now) = p_docs (downloadSummary st' now') ->
  p_score (downloadSummary st now) = p_score (downloadSummary st' now') /\
  p_label (downloadSummary st now) = p_label (downloadSummary st' now') /\
  p_flags (downloadSummary st now) = p_flags (downloadSummary st' now').
Proof.
  cbn [downloadSummary p_applicant p_lineage p_docs p_score p_label p_flags].
  intros Ha Hl Hd. unfold evaluation. rewrite Ha, Hl.
  assert (H : Forall2 sameNameAndType (st_docs st') (st_docs st)).
  { revert Hd. generalize (st_docs st) (st_docs st'). clear.
    induction l as [| d ds IH]; intros [| d' ds'] H; simpl in H;
      try discriminate; [constructor |].
    injection H as Hn _ Ht Hds. constructor; [by split | by apply IH]. }
  rewrite (scoreQuality_ext (st_lineage st') (st_applicant st') (st_docs st) (st_docs st')
             (typesOf_sameNameAndType _ _ H) (pdfOrImg_sameNameAndType _ _ H)).
  done.
Qed.

Lemma downloadSummary_self_contained_witness :
  p_score (downloadSummary
             (mkState fullApplicant fullLineage [doc_nascimento; doc_casamento] false)
             (lit "2025-01-01T00:00:00.000Z"))
  = p_score (downloadSummary
               (mkState fullApplicant fullLineage [doc_nascimento_again; doc_casamento] true)
               (lit "2025-06-30T12:00:00.000Z")).
Proof.
  apply (downloadSummary_self_contained
           (mkState fullApplicant fullLineage [doc_nascimento; doc_casamento] false)
           (mkState fullApplicant fullLineage [doc_nascimento_again; doc_casamento] true)
           (lit "2025-01-01T00:00:00.000Z") (lit "2025-06-30T12:00:00.000Z"));
    vm_compute; reflexivity.
Defined.
